(** * nestjs-template: the authentication service and its validators

    A shallow embedding of [src/api/auth/auth.service.ts] (the class
    [AuthService]), of the exception classes of
    [src/exceptions/auth.exceptions.ts] and of the [IsPassword] decorator,
    followed by the properties of the specification that concern them.

    Layout: JavaScript strings and the regular-expression matcher, the
    validators, errors and promises, the two collaborators (the Cognito
    client and the Prisma user table), the service, then the theorems. *)

From stdpp Require Import base option list strings gmap.
From Stdlib Require Import NArith Ascii String List Bool Lia.
Import ListNotations.
Local Open Scope string_scope.
Local Open Scope list_scope.

(* ===================================================================== *)
(** ** JavaScript strings *)
(* ===================================================================== *)

(** A JavaScript string is a sequence of UTF-16 code units; [length],
    regular expressions without the [u] flag and the validators below all
    work on code units. *)
Module JsString.

Definition t := list N.

(** A literal written with characters of the Latin-1 range. *)
Fixpoint lit (s : string) : t :=
  match s with
  | EmptyString => []
  | String c s' => N_of_ascii c :: lit s'
  end.

Definition cu (c : ascii) : N := N_of_ascii c.

(** LineTerminator of ECMA-262: LF, CR, LS, PS. *)
Definition is_line_terminator (c : N) : bool :=
  (c =? 10)%N || (c =? 13)%N || (c =? 8232)%N || (c =? 8233)%N.

(** The code units before the first line terminator. *)
Fixpoint first_line (s : t) : t :=
  match s with
  | [] => []
  | c :: s' => if is_line_terminator c then [] else c :: first_line s'
  end.

End JsString.

(* ===================================================================== *)
(** ** Regular expressions *)
(* ===================================================================== *)

(** The fragment of ECMAScript patterns that the source uses: the
    assertion [^], character classes and [.], the greedy quantifiers [*]
    and [{n,}] over a one-character atom, sequencing and the positive
    lookahead [(?=...)].  The matcher is the backtracking matcher of
    ECMA-262 in continuation-passing style: a state is the index reached
    and the rest of the input, a continuation says whether the rest of
    the pattern matches from a state. *)
Module RegExp.
Import JsString.

Inductive class_item :=
| Single (c : N)
| Range (lo hi : N).

Inductive atom :=
| Dot
| Class (items : list class_item).

Inductive node :=
| Empty
| Assert_start
| Atom (a : atom)
| Star (a : atom)
| Repeat_min (n : nat) (a : atom)
| Seq (r1 r2 : node)
| Lookahead (r : node).

Definition item_matches (i : class_item) (c : N) : bool :=
  match i with
  | Single x => (c =? x)%N
  | Range lo hi => (lo <=? c)%N && (c <=? hi)%N
  end.

Definition atom_matches (a : atom) (c : N) : bool :=
  match a with
  | Dot => negb (is_line_terminator c)
  | Class items => existsb (fun i => item_matches i c) items
  end.

Definition cont := nat -> JsString.t -> bool.

Definition accept : cont := fun _ _ => true.

(** [a*]: take one more character when possible, else go on; come back
    and go on with fewer characters when the continuation fails. *)
Fixpoint star (a : atom) (k : cont) (pos : nat) (s : JsString.t) : bool :=
  match s with
  | c :: s' => (atom_matches a c && star a k (S pos) s') || k pos s
  | [] => k pos []
  end.

(** [a{n,}]: [n] mandatory characters, then [a*]. *)
Fixpoint repeat_min (n : nat) (a : atom) (k : cont) (pos : nat)
         (s : JsString.t) : bool :=
  match n with
  | O => star a k pos s
  | S n' =>
      match s with
      | c :: s' => atom_matches a c && repeat_min n' a k (S pos) s'
      | [] => false
      end
  end.

Fixpoint run (r : node) (k : cont) (pos : nat) (s : JsString.t) : bool :=
  match r with
  | Empty => k pos s
  | Assert_start => Nat.eqb pos 0 && k pos s
  | Atom a =>
      match s with
      | c :: s' => atom_matches a c && k (S pos) s'
      | [] => false
      end
  | Star a => star a k pos s
  | Repeat_min n a => repeat_min n a k pos s
  | Seq r1 r2 => run r1 (run r2 k) pos s
  | Lookahead r' => run r' accept pos s && k pos s
  end.

(** [RegExp.prototype.test] for a pattern without the [g] and [y]
    flags: a match is looked for at every start index, from 0 on. *)
Fixpoint search (r : node) (pos : nat) (s : JsString.t) : bool :=
  run r accept pos s
  || match s with
     | [] => false
     | _ :: s' => search r (S pos) s'
     end.

Definition test (r : node) (s : JsString.t) : bool := search r 0 s.

End RegExp.

(* ===================================================================== *)
(** ** Validators *)
(* ===================================================================== *)

(** [class-validator] decorators used by [IsPassword], applied to a
    string value.  [applyDecorators] attaches all of them to the
    property; the value is accepted when every one of them holds. *)
Module Validators.
Import JsString RegExp.

(** [IsNotEmpty]: value !== '' (and not null or undefined). *)
Definition IsNotEmpty (s : JsString.t) : bool :=
  match s with [] => false | _ => true end.

(** The two counts that [validator.isLength] subtracts from
    [str.length]: the matches of /(\uFE0F|\uFE0E)/g and of
    /[\uD800-\uDBFF][\uDC00-\uDFFF]/g, found from left to right without
    overlap.  This is the count of validator.js 13.9 to 13.15.20; other
    releases treat the presentation selectors otherwise (module
    [Versions] below), and all of them count code units on a string
    without surrogates and presentation selectors. *)
Definition is_presentation_selector (c : N) : bool :=
  (c =? 65039)%N || (c =? 65038)%N.

Definition is_high_surrogate (c : N) : bool :=
  (55296 <=? c)%N && (c <=? 56319)%N.

Definition is_low_surrogate (c : N) : bool :=
  (56320 <=? c)%N && (c <=? 57343)%N.

Fixpoint presentation_sequences (s : JsString.t) : nat :=
  match s with
  | [] => 0
  | c :: s' =>
      (if is_presentation_selector c then 1 else 0)
      + presentation_sequences s'
  end.

Fixpoint surrogate_pairs (s : JsString.t) : nat :=
  match s with
  | [] => 0
  | h :: t =>
      match t with
      | l :: s' =>
          if is_high_surrogate h && is_low_surrogate l
          then S (surrogate_pairs s')
          else surrogate_pairs t
      | [] => 0
      end
  end.

Definition validator_len (s : JsString.t) : nat :=
  length s - presentation_sequences s - surrogate_pairs s.

(** [MinLength(min)]: [validator.isLength(value, { min })]. *)
Definition MinLength (min : nat) (s : JsString.t) : bool :=
  (min <=? validator_len s)%nat.

(** [Matches(pattern)]: whether the pattern has a match in the value. *)
Definition Matches (pattern : node) (s : JsString.t) : bool :=
  test pattern s.

Definition lower : atom := Class [Range (cu "a") (cu "z")].
Definition upper : atom := Class [Range (cu "A") (cu "Z")].
Definition digit : atom := Class [Range (cu "0") (cu "9")].
(** [[!@#$%^&*?()\-_,=+]]; the backslash escapes the hyphen. *)
Definition symbol : atom :=
  Class (map (fun c => Single (cu c))
    ["!"; "@"; "#"; "$"; "%"; "^"; "&"; "*"; "?"; "("; ")"; "-"; "_";
     ","; "="; "+"]%char).

(** /^(?=.*[a-z])(?=.*[A-Z])(?=.*[0-9])(?=.*[!@#$%^&*?()\-_,=+])(?=.{8,})/ *)
Definition password_pattern : node :=
  Seq Assert_start
 (Seq (Lookahead (Seq (Star Dot) (Atom lower)))
 (Seq (Lookahead (Seq (Star Dot) (Atom upper)))
 (Seq (Lookahead (Seq (Star Dot) (Atom digit)))
 (Seq (Lookahead (Seq (Star Dot) (Atom symbol)))
      (Lookahead (Repeat_min 8 Dot)))))).

Definition IsPassword (s : JsString.t) : bool :=
  IsNotEmpty s && MinLength 8 s && Matches password_pattern s.

(** The policy in the words of the specification: non-empty, at least
    8 characters, and somewhere in the string a lowercase letter, an
    uppercase letter, a digit and one of the listed symbols. *)
Definition spec_password_policy (s : JsString.t) : bool :=
  negb (Nat.eqb (length s) 0)
  && (8 <=? length s)%nat
  && existsb (atom_matches lower) s
  && existsb (atom_matches upper) s
  && existsb (atom_matches digit) s
  && existsb (atom_matches symbol) s.

End Validators.

(* ===================================================================== *)
(** ** Errors, truthiness and promises *)
(* ===================================================================== *)

Module Js.

(** An error object raised by a collaborator (the AWS SDK, Prisma):
    the service reads only [name] and [message]. *)
Record Error := { name : string; message : string }.

(** The exceptions the service constructs.  The classes of
    [auth.exceptions.ts] extend [BadRequestException] with a fixed
    message and carry the caller's text as [description]; the service
    also builds plain [BadRequestException]s, from a string or from an
    object literal with [message] and [name]. *)
Inductive HttpException :=
| BadRequestException (message : string)
| BadRequestException_object (message name : string)
| DuplicateEmailException
| SignupUserException (description : string)
| LoginUserException (description : string)
| UserNotConfirmedException (description : string)
| InvalidUpdateUserException (description : string)
| ResendConfirmationCodeException (description : string)
| ConfirmSignupException (description : string).

(** [message] of an exception: the string that its class hands to
    [super] as first argument, or the [message] of the object literal.
    [LoginUserException] hands over the function that
    [i18nValidationMessage] returns, neither a string nor an object, and
    [HttpException] then takes the words of the class name. *)
Definition http_message (e : HttpException) : string :=
  match e with
  | BadRequestException m => m
  | BadRequestException_object m _ => m
  | DuplicateEmailException =>
      "A user associated with this email already exists"
  | SignupUserException _ => "An error Occurred while signing up the user"
  | LoginUserException _ => "Login User Exception"
  | UserNotConfirmedException _ => "User is not confirmed"
  | InvalidUpdateUserException _ =>
      "An error Occurred while updating the user"
  | ResendConfirmationCodeException _ =>
      "An error Occurred while resending the confirmation code"
  | ConfirmSignupException _ =>
      "An error Occurred while confirming the user"
  end.

(** The [name] field of the object literal, where there is one. *)
Definition http_body_name (e : HttpException) : option string :=
  match e with
  | BadRequestException_object _ n => Some n
  | _ => None
  end.

(** Whatever a [throw] (or a rejected promise) carries. *)
Inductive Thrown :=
| Collaborator (e : Error)
| Http (e : HttpException).

(** [err.message] and [err.name] in a catch block. *)
Definition message_of (t : Thrown) : string :=
  match t with
  | Collaborator e => message e
  | Http e => http_message e
  end.

Definition name_of (t : Thrown) : string :=
  match t with
  | Collaborator e => name e
  | Http (BadRequestException _) | Http (BadRequestException_object _ _) =>
      "BadRequestException"
  | Http DuplicateEmailException => "DuplicateEmailException"
  | Http (SignupUserException _) => "SignupUserException"
  | Http (LoginUserException _) => "LoginUserException"
  | Http (UserNotConfirmedException _) => "UserNotConfirmedException"
  | Http (InvalidUpdateUserException _) => "InvalidUpdateUserException"
  | Http (ResendConfirmationCodeException _) =>
      "ResendConfirmationCodeException"
  | Http (ConfirmSignupException _) => "ConfirmSignupException"
  end.

(** A settled promise.  Requests are modelled one at a time, so a
    promise is known by its outcome. *)
Inductive Promise (A : Type) :=
| Fulfilled (value : A)
| Rejected (reason : Thrown).
Arguments Fulfilled {A} value.
Arguments Rejected {A} reason.

(** ToBoolean of ECMA-262, for the kinds of value that the service puts
    in a condition. *)
Class Truthy (A : Type) := ToBoolean : A -> bool.

#[export] Instance truthy_bool : Truthy bool := fun b => b.

(** [boolean | undefined]: undefined is falsy. *)
#[export] Instance truthy_optional_bool : Truthy (option bool) :=
  fun v => match v with Some b => b | None => false end.

(** Every object is truthy, a promise too, whatever it settles to. *)
#[export] Instance truthy_promise {A} : Truthy (Promise A) :=
  fun _ => true.

(** [a === b] between a possibly undefined string and a string. *)
Definition strict_eq (a : option string) (b : string) : bool :=
  match a with
  | Some x => String.eqb x b
  | None => false
  end.

End Js.

(* ===================================================================== *)
(** ** The identity provider *)
(* ===================================================================== *)

(** The commands of [@aws-sdk/client-cognito-identity-provider] that the
    service sends, with the fields it sets, and of their outputs the
    fields it reads. *)
Module Cognito.

Inductive AuthFlowType := USER_PASSWORD_AUTH | REFRESH_TOKEN.

Definition NEW_PASSWORD_REQUIRED : string := "NEW_PASSWORD_REQUIRED".
Definition MFA_SETUP : string := "MFA_SETUP".
Definition SOFTWARE_TOKEN_MFA : string := "SOFTWARE_TOKEN_MFA".

Inductive Command :=
| SignUpCommand (ClientId Username Password : string)
| ConfirmSignUpCommand (ClientId Username ConfirmationCode : string)
| InitiateAuthCommand (AuthFlow : AuthFlowType) (ClientId : string)
    (AuthParameters : list (string * string))
| AssociateSoftwareTokenCommand (Session : option string)
| RespondToAuthChallengeCommand (ClientId ChallengeName Session : string)
    (ChallengeResponses : list (string * string))
| ResendConfirmationCodeCommand (ClientId Username : string)
| ForgotPasswordCommand (ClientId Username : string).

Record AuthenticationResultType := {
  AccessToken : option string;
  ExpiresIn : option Z;
  TokenType : option string;
  RefreshToken : option string;
  IdToken : option string;
}.

Module SignUpOutput.
Record t := { UserConfirmed : option bool; UserSub : option string }.
End SignUpOutput.

Module InitiateAuthOutput.
Record t := {
  ChallengeName : option string;
  Session : option string;
  AuthenticationResult : option AuthenticationResultType;
}.
End InitiateAuthOutput.

Module AssociateSoftwareTokenOutput.
Record t := { SecretCode : option string; Session : option string }.
End AssociateSoftwareTokenOutput.

Module RespondToAuthChallengeOutput.
Record t := {
  ChallengeName : option string;
  Session : option string;
  AuthenticationResult : option AuthenticationResultType;
}.
End RespondToAuthChallengeOutput.

Definition Output (c : Command) : Type :=
  match c with
  | SignUpCommand _ _ _ => SignUpOutput.t
  | InitiateAuthCommand _ _ _ => InitiateAuthOutput.t
  | AssociateSoftwareTokenCommand _ => AssociateSoftwareTokenOutput.t
  | RespondToAuthChallengeCommand _ _ _ _ => RespondToAuthChallengeOutput.t
  | ConfirmSignUpCommand _ _ _
  | ResendConfirmationCodeCommand _ _
  | ForgotPasswordCommand _ _ => unit
  end.

(** What the provider answers to a command. *)
Inductive Reply (A : Type) :=
| Ok (output : A)
| Fail (error : Js.Error).
Arguments Ok {A} output.
Arguments Fail {A} error.

(** The provider is a black box: any function from commands to replies. *)
Definition Provider := forall c : Command, Reply (Output c).

End Cognito.

(* ===================================================================== *)
(** ** The user table *)
(* ===================================================================== *)

(** The [User] model of the Prisma client, with the columns the service
    writes.  [update] takes [where: { email }], so [email] is a unique
    column: the table is a finite map from emails to rows. *)
Module Prisma.

Inductive UserRegistrationStepEnum := PENDING_CONFIRMATION | DONE.

Record User := {
  email : string;
  registrationStep : UserRegistrationStepEnum;
  sub : option string;
}.

Inductive Operation := Count | Create | Update.

End Prisma.

(* ===================================================================== *)
(** ** Effects *)
(* ===================================================================== *)

(** One request runs against a world: the rows of the user table and the
    record of every call made to a collaborator, oldest first.  A
    computation either completes normally or throws. *)
Module Run.
Import Js.

Inductive Event :=
| Sent (c : Cognito.Command)
| UserCount (email : string)
| UserCreate (data : Prisma.User)
| UserUpdate (email : string) (step : Prisma.UserRegistrationStepEnum).

Record World := {
  users : gmap string Prisma.User;
  log : list Event;
}.

Inductive Completion (A : Type) :=
| Normal (value : A)
| Throw (thrown : Thrown).
Arguments Normal {A} value.
Arguments Throw {A} thrown.

Definition M (A : Type) : Type := World -> Completion A * World.

Definition ret {A} (a : A) : M A := fun w => (Normal a, w).

Definition bind {A B} (m : M A) (k : A -> M B) : M B :=
  fun w =>
    match m w with
    | (Normal a, w') => k a w'
    | (Throw t, w') => (Throw t, w')
    end.

Definition throw {A} (t : Thrown) : M A := fun w => (Throw t, w).

(** try { body } catch (err) { handler err } *)
Definition try_catch {A} (body : M A) (handler : Thrown -> M A) : M A :=
  fun w =>
    match body w with
    | (Normal a, w') => (Normal a, w')
    | (Throw t, w') => handler t w'
    end.

(** [await p]: the value of a fulfilled promise; a rejected one throws
    its reason at the [await]. *)
Definition await {A} (p : Promise A) : M A :=
  match p with
  | Fulfilled a => ret a
  | Rejected t => throw t
  end.

(** An [async] function never throws to its caller: it returns a
    promise, fulfilled with the returned value or rejected with what
    the body threw. *)
Definition async {A} (body : M A) : M (Promise A) :=
  fun w =>
    match body w with
    | (Normal a, w') => (Normal (Fulfilled a), w')
    | (Throw t, w') => (Normal (Rejected t), w')
    end.

(** An [async] function whose body returns a promise without awaiting
    it: the promise of the function settles as the returned one does,
    outside of any [try] of the body. *)
Definition async_returning_promise {A} (body : M (Promise A))
  : M (Promise A) :=
  fun w =>
    match body w with
    | (Normal p, w') => (Normal p, w')
    | (Throw t, w') => (Normal (Rejected t), w')
    end.

Definition emit (e : Event) : M unit :=
  fun w => (Normal tt, {| users := users w; log := log w ++ [e] |}).

Definition get_users : M (gmap string Prisma.User) :=
  fun w => (Normal (users w), w).

Definition put_users (u : gmap string Prisma.User) : M unit :=
  fun w => (Normal tt, {| users := u; log := log w |}).

End Run.

Declare Scope run_scope.
Delimit Scope run_scope with run.
Notation "'let!' x ':=' m 'in' k" := (Run.bind m (fun x => k))
  (at level 10, x name, m at level 100, k at level 200) : run_scope.
Notation "m ';;' k" := (Run.bind m (fun _ => k))
  (at level 100, k at level 200, right associativity) : run_scope.

(* ===================================================================== *)
(** ** Request bodies *)
(* ===================================================================== *)

Module SignupInput.
Record t := { email : string; password : string }.
End SignupInput.

Module ConfirmSignupInput.
Record t := { email : string; code : string }.
End ConfirmSignupInput.

Module LoginInput.
Record t := { email : string; password : string }.
End LoginInput.

Module ConfirmLoginInput.
Record t := { email : string; session : string; code : string }.
End ConfirmLoginInput.

Module EmailOnlyInput.
Record t := { email : string }.
End EmailOnlyInput.

(* ===================================================================== *)
(** ** AuthService *)
(* ===================================================================== *)

(** What a deployment fixes: the client identifier read from the
    environment, the provider behind [this.client], and the ways the
    database can fail ([prisma_fault] for failures that do not depend on
    the rows, and the errors Prisma raises for a duplicate unique key
    and for a missing row). *)
Record Env := {
  clientId : string;
  provider : Cognito.Provider;
  prisma_fault : Prisma.Operation -> option Js.Error;
  unique_constraint_failed : Js.Error;
  record_not_found : Js.Error;
}.

Module AuthService.
Import Js Cognito Prisma Run.
Local Open Scope run_scope.

(** The object literals that [_handleLoginCommandResponse] returns:
    keys in order, each value a string or undefined. *)
Definition LoginResult := list (string * option string).

Section Service.
Context (env : Env).

(** this.client.send(command) *)
Definition send (c : Command) : M (Promise (Output c)) :=
  emit (Sent c) ;;
  ret (match provider env c with
       | Ok o => Fulfilled o
       | Fail e => Rejected (Collaborator e)
       end).

(** this.prisma.user.count({ where: { email } }) *)
Definition user_count (email : string) : M (Promise nat) :=
  emit (UserCount email) ;;
  match prisma_fault env Count with
  | Some e => ret (Rejected (Collaborator e))
  | None =>
      let! rows := get_users in
      ret (Fulfilled (match rows !! email with Some _ => 1 | None => 0 end))
  end.

(** this.prisma.user.create({ data }) *)
Definition user_create (data : User) : M (Promise User) :=
  emit (UserCreate data) ;;
  match prisma_fault env Create with
  | Some e => ret (Rejected (Collaborator e))
  | None =>
      let! rows := get_users in
      match rows !! Prisma.email data with
      | Some _ =>
          ret (Rejected (Collaborator (unique_constraint_failed env)))
      | None =>
          put_users (<[Prisma.email data := data]> rows) ;;
          ret (Fulfilled data)
      end
  end.

(** this.prisma.user.update({ where: { email }, data: { registrationStep } }) *)
Definition user_update (email : string) (step : UserRegistrationStepEnum)
  : M (Promise User) :=
  emit (UserUpdate email step) ;;
  match prisma_fault env Update with
  | Some e => ret (Rejected (Collaborator e))
  | None =>
      let! rows := get_users in
      match rows !! email with
      | None => ret (Rejected (Collaborator (record_not_found env)))
      | Some row =>
          let row' := {| Prisma.email := Prisma.email row;
                         registrationStep := step;
                         sub := sub row |} in
          put_users (<[email := row']> rows) ;;
          ret (Fulfilled row')
      end
  end.

Definition _checkIfEmailExists (email : string) : M (Promise bool) :=
  async (
    let! p := user_count email in
    let! emailCount := await p in
    ret (0 <? emailCount)%nat).

Definition _sendCreateNewUserCommand (input : SignupInput.t) :=
  send (SignUpCommand (clientId env) (SignupInput.email input)
          (SignupInput.password input)).

Definition _createNewUser (input : SignupInput.t) : M (Promise unit) :=
  async (
    let! p := _sendCreateNewUserCommand input in
    let! resp := await p in
    let! q := user_create
      {| Prisma.email := SignupInput.email input;
         registrationStep :=
           if ToBoolean (SignUpOutput.UserConfirmed resp)
           then PENDING_CONFIRMATION
           else DONE;
         sub := SignUpOutput.UserSub resp |} in
    let! _ := await q in
    ret tt).

Definition _sendConfirmUserSignupCommand (input : ConfirmSignupInput.t) :=
  send (ConfirmSignUpCommand (clientId env)
          (ConfirmSignupInput.email input) (ConfirmSignupInput.code input)).

Definition _updateUserAfterSignupConfirmation (email : string) :=
  user_update email DONE.

Definition _sendLoginCommand (input : LoginInput.t) :=
  send (InitiateAuthCommand USER_PASSWORD_AUTH (clientId env)
          [("USERNAME", LoginInput.email input);
           ("PASSWORD", LoginInput.password input)]).

Definition _sendSetupMFACommand (session : option string) :=
  send (AssociateSoftwareTokenCommand session).

Definition _handleLoginCommandResponse (resp : InitiateAuthOutput.t)
  : M (Promise LoginResult) :=
  async (
    if strict_eq (InitiateAuthOutput.ChallengeName resp)
         NEW_PASSWORD_REQUIRED
    then ret [("ChallengeName", Some NEW_PASSWORD_REQUIRED);
              ("Session", InitiateAuthOutput.Session resp)]
    else if strict_eq (InitiateAuthOutput.ChallengeName resp) MFA_SETUP
    then
      let! p := _sendSetupMFACommand (InitiateAuthOutput.Session resp) in
      let! res := await p in
      ret [("ChallengeName", Some MFA_SETUP);
           ("Session", AssociateSoftwareTokenOutput.Session res);
           ("SecretCode", AssociateSoftwareTokenOutput.SecretCode res)]
    else ret [("ChallengeName", InitiateAuthOutput.ChallengeName resp);
              ("Session", InitiateAuthOutput.Session resp)]).

Definition _sendResendConfirmationCodeCommand (input : EmailOnlyInput.t) :=
  send (ResendConfirmationCodeCommand (clientId env)
          (EmailOnlyInput.email input)).

Definition _sendForgotPasswordCommand (email : string) :=
  send (ForgotPasswordCommand (clientId env) email).

Definition _sendRefreshTokenCommand (refreshToken : string) :=
  send (InitiateAuthCommand REFRESH_TOKEN (clientId env)
          [("REFRESH_TOKEN", refreshToken)]).

Definition _sendConfirmLoginCommand (input : ConfirmLoginInput.t) :=
  send (RespondToAuthChallengeCommand (clientId env) SOFTWARE_TOKEN_MFA
          (ConfirmLoginInput.session input)
          [("USERNAME", ConfirmLoginInput.email input);
           ("SOFTWARE_TOKEN_MFA_CODE", ConfirmLoginInput.code input)]).

Definition signup (input : SignupInput.t) : M (Promise unit) :=
  async (
    let! exists_ := _checkIfEmailExists (SignupInput.email input) in
    if ToBoolean exists_
    then throw (Http DuplicateEmailException)
    else
      try_catch
        (let! p := _createNewUser input in await p)
        (fun err => throw (Http (BadRequestException (message_of err))))).

(** Resolves with undefined ([None]) or with the exception object
    that the catch block returns. *)
Definition confirmSignup (input : ConfirmSignupInput.t)
  : M (Promise (option HttpException)) :=
  async (
    try_catch
      (let! p := _sendConfirmUserSignupCommand input in
       let! _ := await p in
       let! q := _updateUserAfterSignupConfirmation
                   (ConfirmSignupInput.email input) in
       let! _ := await q in
       ret None)
      (fun err => ret (Some (InvalidUpdateUserException (message_of err))))).

Definition login (input : LoginInput.t) : M (Promise LoginResult) :=
  async_returning_promise (
    try_catch
      (let! p := _sendLoginCommand input in
       let! resp := await p in
       _handleLoginCommandResponse resp)
      (fun err => throw (Http (LoginUserException (message_of err))))).

Definition confirmLogin (input : ConfirmLoginInput.t)
  : M (Promise (option AuthenticationResultType)) :=
  async (
    try_catch
      (let! p := _sendConfirmLoginCommand input in
       let! res := await p in
       ret (RespondToAuthChallengeOutput.AuthenticationResult res))
      (fun error =>
         let name := name_of error in
         if String.eqb name "CodeMismatchException"
            || String.eqb name "ExpiredCodeException"
         then throw (Http (BadRequestException_object
                             "Invalid code, please try again"
                             "CodeMismatchException"))
         else if String.eqb name "NotAuthorizedException"
         then throw (Http (BadRequestException_object
                             "Session expired, please try again"
                             "NotAuthorizedException"))
         else throw error)).

Definition resendConfirmationCode (input : EmailOnlyInput.t)
  : M (Promise unit) :=
  async (
    try_catch
      (let! p := _sendResendConfirmationCodeCommand input in
       let! _ := await p in
       ret tt)
      (fun error =>
         throw (Http (ResendConfirmationCodeException (message_of error))))).

Definition forgotPassword (email : string) : M (Promise unit) :=
  async (
    try_catch
      (let! p := _sendForgotPasswordCommand email in
       let! _ := await p in
       ret tt)
      (fun error => throw error)).

Definition refreshToken (refreshToken : string)
  : M (Promise InitiateAuthOutput.t) :=
  async (
    try_catch
      (let! p := _sendRefreshTokenCommand refreshToken in await p)
      (fun error => throw error)).

End Service.

(** The commands in a log that create an account, and those that
    associate a software token. *)
Definition is_create_account (e : Event) : bool :=
  match e with Sent (SignUpCommand _ _ _) => true | _ => false end.

Definition is_associate_token (e : Event) : bool :=
  match e with Sent (AssociateSoftwareTokenCommand _) => true | _ => false end.

Definition is_insert (e : Event) : bool :=
  match e with UserCreate _ => true | _ => false end.

Definition count_events (f : Event -> bool) (l : list Event) : nat :=
  length (List.filter f l).

End AuthService.

(** The plumbing that every proof about a method unfolds. *)
Create HintDb effects.
#[export] Hint Unfold AuthService.send AuthService.user_count
  AuthService.user_create AuthService.user_update Run.async
  Run.async_returning_promise Run.try_catch Run.bind Run.emit : effects.


(* ===================================================================== *)
(** ** The other decorators of the file of [IsPassword] *)
(* ===================================================================== *)

(** [String.prototype.split] with a non-empty string separator and the
    [AccessToken] parameter decorator. *)
Module Decorators.
Import JsString Validators.

(** Whether [sep] is found in [s] at index 0. *)
Fixpoint starts_with (sep s : JsString.t) : bool :=
  match sep, s with
  | [], _ => true
  | _ :: _, [] => false
  | a :: sep', b :: s' => (a =? b)%N && starts_with sep' s'
  end.

(** Whether [sep] is found in [s] at some index. *)
Fixpoint occurs (sep s : JsString.t) : bool :=
  starts_with sep s
  || match s with
     | [] => false
     | _ :: s' => occurs sep s'
     end.

(** The scan of [split]: [piece] holds, last first, the code units since
    the last separator, and [skip] the code units of a separator just
    found that are still to be passed over.  A separator is looked for
    at every index from left to right, and the search resumes after it. *)
Fixpoint split_from (sep : JsString.t) (skip : nat) (piece : JsString.t)
         (s : JsString.t) : list JsString.t :=
  match s with
  | [] => [rev piece]
  | c :: s' =>
      match skip with
      | S k => split_from sep k piece s'
      | O =>
          if starts_with sep s
          then rev piece :: split_from sep (length sep - 1) [] s'
          else split_from sep 0 (c :: piece) s'
      end
  end.

(** [s.split(sep)] for a non-empty [sep]. *)
Definition split (sep s : JsString.t) : list JsString.t :=
  split_from sep 0 [] s.

(** A string in a condition: the empty string is falsy. *)
#[export] Instance truthy_string : Js.Truthy JsString.t :=
  fun s => match s with [] => false | _ => true end.

(** The low surrogates of a string, an upper bound of the surrogate
    pairs that [validator.isLength] finds. *)
Definition low_surrogates (s : JsString.t) : nat :=
  length (List.filter is_low_surrogate s).

(** What the factory of [AccessToken] does with the cookies of a
    request: it throws an [UnauthorizedException] or returns
    [token.split('Bearer ')[1]], which is undefined when the array has
    one element. *)
Inductive Token_result :=
| Unauthorized
| Returned (value : option JsString.t).

Definition Bearer : JsString.t := lit "Bearer ".

(** [cookies] is the object [request.cookies]: a missing key reads as
    undefined, and [!token] holds for undefined and for the empty
    string. *)
Definition AccessToken (cookies : gmap string JsString.t) : Token_result :=
  match cookies !! "accessToken" with
  | None => Unauthorized
  | Some token =>
      if negb (Js.ToBoolean token)
      then Unauthorized
      else Returned (nth_error (split Bearer token) 1)
  end.

End Decorators.

(* ===================================================================== *)
(** ** The length validators under every release of validator.js *)
(* ===================================================================== *)

(** [MinLength] and [Length] call [validator.isLength], which is not
    part of the repository, and whose releases differ in the
    presentation selectors U+FE0E and U+FE0F that they leave out of the
    count.  The release is a parameter here. *)
Module Versions.
Import JsString RegExp Validators.

Inductive isLength_rule :=
(** up to 13.7: only the second half of a surrogate pair is left out *)
| No_selector
(** 13.9 to 13.15.20: every match of /(\uFE0F|\uFE0E)/g is left out too,
    as in [Validators.validator_len] *)
| Every_selector
(** from 13.15.22 on: every match of /[^\uFE0F\uFE0E][\uFE0F\uFE0E]/g *)
| Selector_after_other.

(** The matches of /[^\uFE0F\uFE0E][\uFE0F\uFE0E]/g, from left to right
    without overlap. *)
Fixpoint selector_sequences (s : JsString.t) : nat :=
  match s with
  | [] => 0
  | a :: t =>
      match t with
      | b :: s' =>
          if negb (is_presentation_selector a) && is_presentation_selector b
          then S (selector_sequences s')
          else selector_sequences t
      | [] => 0
      end
  end.

Definition selectors_left_out (rule : isLength_rule) (s : JsString.t) : nat :=
  match rule with
  | No_selector => 0
  | Every_selector => presentation_sequences s
  | Selector_after_other => selector_sequences s
  end.

Definition validator_len (rule : isLength_rule) (s : JsString.t) : nat :=
  length s - selectors_left_out rule s - surrogate_pairs s.

(** [MinLength(min)]: [validator.isLength(value, { min })]. *)
Definition MinLength (rule : isLength_rule) (min : nat) (s : JsString.t)
  : bool :=
  (min <=? validator_len rule s)%nat.

(** [Length(min, max)]: [validator.isLength(value, { min, max })]. *)
Definition Length (rule : isLength_rule) (min max : nat) (s : JsString.t)
  : bool :=
  (min <=? validator_len rule s)%nat && (validator_len rule s <=? max)%nat.

Definition IsPassword (rule : isLength_rule) (s : JsString.t) : bool :=
  IsNotEmpty s && MinLength rule 8 s && Matches password_pattern s.

Definition IsCode (rule : isLength_rule) (s : JsString.t) : bool :=
  IsNotEmpty s && Length rule 6 6 s.

(** The strings on which the releases agree by construction: no half of
    a surrogate pair and no presentation selector. *)
Definition ordinary_unit (c : N) : bool :=
  negb (is_high_surrogate c || is_low_surrogate c
        || is_presentation_selector c).

Definition no_surrogate_or_selector (s : JsString.t) : Prop :=
  Forall (fun c => ordinary_unit c = true) s.

End Versions.

(* ===================================================================== *)
(** ** Observing a run *)
(* ===================================================================== *)

Module Observe.
Import Run.

(** The table after a computation has run. *)
Definition users_after {A} (m : M A) (w : World)
  : gmap string Prisma.User :=
  users (snd (m w)).

(** How the computation completed. *)
Definition completion {A} (m : M A) (w : World) : Completion A :=
  fst (m w).

(** A call to the identity provider, as opposed to a query. *)
Definition is_provider_call (e : Event) : bool :=
  match e with Sent _ => true | _ => false end.

(** A computation that leaves the table as it was and calls nothing
    but the identity provider. *)
Definition provider_only {A} (m : M A) (w : World) : Prop :=
  exists c evs,
    m w = (c, {| users := users w; log := log w ++ evs |})
    /\ forallb is_provider_call evs = true.

End Observe.

(* ===================================================================== *)
(** ** Sample inputs and test doubles *)
(* ===================================================================== *)

(** A password that has its only lowercase letter after a line feed. *)
Definition two_line_password : JsString.t :=
  JsString.lit "ABCDEF1!" ++ [10%N] ++ JsString.lit "a".

(** The row of a user once confirmed: only [registrationStep] differs. *)
Definition confirmed (row : Prisma.User) : Prisma.User :=
  {| Prisma.email := Prisma.email row;
     Prisma.registrationStep := Prisma.DONE;
     Prisma.sub := Prisma.sub row |}.

Module Samples.
Import Js Cognito Prisma Run.

Definition sign_up_reply (confirmed : bool) : SignUpOutput.t :=
  {| SignUpOutput.UserConfirmed := Some confirmed;
     SignUpOutput.UserSub := Some "sub-1" |}.

Definition tokens : AuthenticationResultType :=
  {| AccessToken := Some "access"; ExpiresIn := Some 3600%Z;
     TokenType := Some "Bearer"; RefreshToken := Some "refresh";
     IdToken := Some "id" |}.

(** A provider that accepts everything; it answers a login with the
    given challenge and a sign-up with the given confirmation status. *)
Definition accepting (confirmed : bool) (challenge : option string)
  : Provider :=
  fun c =>
    match c return Reply (Output c) with
    | SignUpCommand _ _ _ => Ok (sign_up_reply confirmed)
    | ConfirmSignUpCommand _ _ _ => Ok tt
    | InitiateAuthCommand _ _ _ =>
        Ok {| InitiateAuthOutput.ChallengeName := challenge;
              InitiateAuthOutput.Session := Some "session-1";
              InitiateAuthOutput.AuthenticationResult := None |}
    | AssociateSoftwareTokenCommand _ =>
        Ok {| AssociateSoftwareTokenOutput.SecretCode := Some "secret";
              AssociateSoftwareTokenOutput.Session := Some "session-2" |}
    | RespondToAuthChallengeCommand _ _ _ _ =>
        Ok {| RespondToAuthChallengeOutput.ChallengeName := Some "SMS_MFA";
              RespondToAuthChallengeOutput.Session := Some "session-3";
              RespondToAuthChallengeOutput.AuthenticationResult :=
                Some tokens |}
    | ResendConfirmationCodeCommand _ _ => Ok tt
    | ForgotPasswordCommand _ _ => Ok tt
    end.

(** A provider that fails every command with the same error. *)
Definition failing (e : Error) : Provider := fun c => Fail e.

Definition env_of (p : Provider) : Env :=
  {| clientId := "client-1";
     provider := p;
     prisma_fault := fun _ => None;
     unique_constraint_failed :=
       {| name := "PrismaClientKnownRequestError"; message := "P2002" |};
     record_not_found :=
       {| name := "PrismaClientKnownRequestError"; message := "P2025" |} |}.

Definition alice : User :=
  {| email := "alice@example.com";
     registrationStep := PENDING_CONFIRMATION;
     sub := Some "sub-0" |}.

Definition empty_world : World := {| users := ∅; log := [] |}.

Definition world_with_alice : World :=
  {| users := {[ "alice@example.com" := alice ]}; log := [] |}.

Definition alice_signup : SignupInput.t :=
  {| SignupInput.email := "alice@example.com";
     SignupInput.password := "Abc123!@" |}.

Definition alice_login : LoginInput.t :=
  {| LoginInput.email := "alice@example.com";
     LoginInput.password := "Abc123!@" |}.

Definition alice_confirm_signup : ConfirmSignupInput.t :=
  {| ConfirmSignupInput.email := "alice@example.com";
     ConfirmSignupInput.code := "123456" |}.

Definition alice_confirm_login : ConfirmLoginInput.t :=
  {| ConfirmLoginInput.email := "alice@example.com";
     ConfirmLoginInput.session := "session-1";
     ConfirmLoginInput.code := "123456" |}.

Definition code_mismatch : Error :=
  {| name := "CodeMismatchException"; message := "Invalid code provided" |}.

Definition not_authorized : Error :=
  {| name := "NotAuthorizedException"; message := "Invalid session" |}.

Definition too_many_requests : Error :=
  {| name := "TooManyRequestsException"; message := "Rate exceeded" |}.

End Samples.

(** More test doubles. *)
Module Fixtures.
Import Js Cognito Prisma Run.

(** A provider that answers the login with the challenge MFA_SETUP and
    fails the associate-software-token command. *)
Definition failing_second_step (e : Error) : Provider :=
  fun c =>
    match c as c0 return Reply (Output c0) with
    | AssociateSoftwareTokenCommand _ => Fail e
    | c0 => Samples.accepting false (Some MFA_SETUP) c0
    end.

(** A deployment whose database is down. *)
Definition database_down : Error :=
  {| name := "PrismaClientInitializationError";
     message := "Can't reach database server" |}.

Definition env_without_database (p : Provider) : Env :=
  {| clientId := "client-1";
     provider := p;
     prisma_fault := fun _ => Some database_down;
     unique_constraint_failed := unique_constraint_failed (Samples.env_of p);
     record_not_found := record_not_found (Samples.env_of p) |}.

Definition bob_signup : SignupInput.t :=
  {| SignupInput.email := "bob@example.com";
     SignupInput.password := "Abc123!@" |}.

Definition bob_confirm_signup : ConfirmSignupInput.t :=
  {| ConfirmSignupInput.email := "bob@example.com";
     ConfirmSignupInput.code := "123456" |}.

Definition alice_done : User :=
  {| email := "alice@example.com";
     registrationStep := DONE;
     sub := Some "sub-0" |}.

Definition world_with_alice_done : World :=
  {| users := {[ "alice@example.com" := alice_done ]}; log := [] |}.

(** A provider that answers the login with tokens and no challenge. *)
Definition authenticating : Provider :=
  fun c =>
    match c as c0 return Reply (Output c0) with
    | InitiateAuthCommand _ _ _ =>
        Ok {| InitiateAuthOutput.ChallengeName := None;
              InitiateAuthOutput.Session := Some "session-1";
              InitiateAuthOutput.AuthenticationResult :=
                Some Samples.tokens |}
    | c0 => Samples.accepting false None c0
    end.

Definition alice_email : EmailOnlyInput.t :=
  {| EmailOnlyInput.email := "alice@example.com" |}.

End Fixtures.

(* ===================================================================== *)
(** * Properties *)
(* ===================================================================== *)

(* --------------------------------------------------------------------- *)
(** ** The password policy *)
(* --------------------------------------------------------------------- *)

Section PasswordPolicy.
Import JsString RegExp Validators.

(** [.*] followed by nothing else always finds a match. *)
Lemma star_accept a : forall s pos, star a accept pos s = true.
Proof.
  induction s as [|c s IH]; intros pos; simpl; [reflexivity|].
  apply orb_true_r.
Qed.

(** [.*[class]] looks for a member of the class that no line terminator
    precedes: a member of the first line. *)
Lemma dot_star_class a :
  (forall c, atom_matches a c = true -> is_line_terminator c = false) ->
  forall s pos,
    run (Seq (Star Dot) (Atom a)) accept pos s
    = existsb (atom_matches a) (first_line s).
Proof.
  intros Hcls. simpl.
  induction s as [|c s IH]; intros pos; simpl; [reflexivity|].
  rewrite IH, andb_true_r.
  destruct (is_line_terminator c) eqn:Hlt; simpl.
  - destruct (atom_matches a c) eqn:Hm; [|reflexivity].
    apply Hcls in Hm. congruence.
  - apply orb_comm.
Qed.

(** [.{n,}] needs [n] characters on the first line. *)
Lemma repeat_min_dot n :
  forall s pos,
    repeat_min n Dot accept pos s = (n <=? length (first_line s))%nat.
Proof.
  induction n as [|n IH]; intros s pos; simpl.
  - apply star_accept.
  - destruct s as [|c s]; simpl; [reflexivity|].
    destruct (is_line_terminator c); simpl; [reflexivity|].
    apply IH.
Qed.

(** A pattern that begins with [^] matches at index 0 or nowhere. *)
Lemma search_anchored r :
  forall s pos, (0 < pos)%nat -> search (Seq Assert_start r) pos s = false.
Proof.
  induction s as [|c s IH]; intros pos Hpos; simpl;
    destruct pos; try lia; simpl; [reflexivity|].
  apply IH. lia.
Qed.

Lemma test_anchored r s : test (Seq Assert_start r) s = run r accept 0 s.
Proof.
  unfold test. destruct s as [|c s]; simpl.
  - apply orb_false_r.
  - rewrite search_anchored by lia. apply orb_false_r.
Qed.

Lemma range_matches lo hi c :
  atom_matches (Class [Range lo hi]) c = true <-> (lo <= c <= hi)%N.
Proof.
  simpl. rewrite orb_false_r, andb_true_iff, !N.leb_le. reflexivity.
Qed.

Lemma symbol_matches c :
  atom_matches symbol c = true <-> In c (lit "!@#$%^&*?()-_,=+").
Proof.
  let cls := eval vm_compute in symbol in change symbol with cls.
  let l := eval vm_compute in (lit "!@#$%^&*?()-_,=+") in
  change (lit "!@#$%^&*?()-_,=+") with l.
  cbn -[N.eqb].
  rewrite !orb_true_iff, !N.eqb_eq.
  intuition (try discriminate; subst; auto).
Qed.

Lemma range_not_line_terminator lo hi c :
  (13 < lo)%N -> (hi < 8232)%N ->
  atom_matches (Class [Range lo hi]) c = true -> is_line_terminator c = false.
Proof.
  intros Hlo Hhi Hm. apply range_matches in Hm.
  unfold is_line_terminator.
  rewrite !orb_false_iff, !N.eqb_neq. lia.
Qed.

Lemma symbol_not_line_terminator c :
  atom_matches symbol c = true -> is_line_terminator c = false.
Proof.
  intros Hm. apply symbol_matches in Hm. simpl in Hm.
  repeat (destruct Hm as [<-|Hm]; [reflexivity|]). destruct Hm.
Qed.

Lemma class_not_line_terminator a c :
  In a [lower; upper; digit; symbol] ->
  atom_matches a c = true -> is_line_terminator c = false.
Proof.
  intros [<-|[<-|[<-|[<-|[]]]]];
    [apply (range_not_line_terminator _ _ c); reflexivity ..
    |apply symbol_not_line_terminator].
Qed.

(** What the pattern of [IsPassword] tests. *)
Lemma Matches_password_pattern s :
  Matches password_pattern s
  = existsb (atom_matches lower) (first_line s)
    && (existsb (atom_matches upper) (first_line s)
    && (existsb (atom_matches digit) (first_line s)
    && (existsb (atom_matches symbol) (first_line s)
    && (8 <=? length (first_line s))%nat))).
Proof.
  unfold Matches, password_pattern. rewrite test_anchored.
  change (run (Seq (Lookahead ?r1) ?r2) ?k ?p ?t)
    with (run r1 accept p t && run r2 k p t).
  rewrite (dot_star_class lower)
    by (intros c; apply class_not_line_terminator; simpl; tauto).
  f_equal.
  change (run (Seq (Lookahead ?r1) ?r2) ?k ?p ?t)
    with (run r1 accept p t && run r2 k p t).
  rewrite (dot_star_class upper)
    by (intros c; apply class_not_line_terminator; simpl; tauto).
  f_equal.
  change (run (Seq (Lookahead ?r1) ?r2) ?k ?p ?t)
    with (run r1 accept p t && run r2 k p t).
  rewrite (dot_star_class digit)
    by (intros c; apply class_not_line_terminator; simpl; tauto).
  f_equal.
  change (run (Seq (Lookahead ?r1) ?r2) ?k ?p ?t)
    with (run r1 accept p t && run r2 k p t).
  rewrite (dot_star_class symbol)
    by (intros c; apply class_not_line_terminator; simpl; tauto).
  f_equal.
  change (run (Lookahead (Repeat_min 8 Dot)) accept 0 s)
    with (repeat_min 8 Dot accept 0 s && true).
  rewrite repeat_min_dot. apply andb_true_r.
Qed.

Lemma IsNotEmpty_iff s : IsNotEmpty s = true <-> s <> [].
Proof. destruct s; simpl; split; congruence. Qed.

Lemma exists_in_class a (P : N -> Prop) s :
  (forall c, atom_matches a c = true <-> P c) ->
  existsb (atom_matches a) s = true <-> exists c, In c s /\ P c.
Proof.
  intros HP. rewrite existsb_exists.
  split; intros (c & Hin & Hc); exists c; split; auto; apply HP; exact Hc.
Qed.

(** On a string without line terminators, surrogates and presentation
    selectors, the first line is the string and the validator counts
    code units. *)
Lemma first_line_plain s :
  Forall (fun c => is_line_terminator c = false) s -> first_line s = s.
Proof.
  induction 1 as [|c s Hc _ IH]; simpl; [reflexivity|].
  rewrite Hc, IH. reflexivity.
Qed.

Lemma validator_len_plain s :
  Forall (fun c => (c < 55296)%N) s -> validator_len s = length s.
Proof.
  intros H. unfold validator_len.
  assert (presentation_sequences s = 0%nat /\ surrogate_pairs s = 0%nat)
    as [-> ->]; [|lia].
  induction H as [|c s Hc Hs [IH1 IH2]]; [split; reflexivity|].
  split.
  - simpl. rewrite IH1. unfold is_presentation_selector.
    destruct (N.eqb_spec c 65039), (N.eqb_spec c 65038); simpl; lia.
  - simpl. destruct s as [|l s']; [reflexivity|].
    unfold is_high_surrogate.
    destruct (N.leb_spec 55296 c); simpl; [lia|]. exact IH2.
Qed.

Lemma IsPassword_plain s :
  Forall (fun c => is_line_terminator c = false /\ (c < 55296)%N) s ->
  IsPassword s = spec_password_policy s.
Proof.
  intros H. apply Forall_and_inv in H as [Hlt Hlo].
  unfold IsPassword, spec_password_policy, MinLength.
  rewrite Matches_password_pattern, first_line_plain, validator_len_plain
    by assumption.
  destruct s as [|c s]; [reflexivity|]. simpl IsNotEmpty. simpl Nat.eqb.
  simpl negb.
  destruct (8 <=? length (c :: s))%nat; simpl;
    rewrite ?andb_true_r, ?andb_false_r, ?andb_assoc; reflexivity.
Qed.

(** C8, the counterexample: the specification's policy accepts a
    ten-character password with an uppercase letter, a digit, a symbol
    and, after a line feed, a lowercase letter; [IsPassword] rejects it,
    because [.] does not match a line terminator and every lookahead
    starts at index 0. *)
Lemma IsPassword_rejects_two_line_password :
  spec_password_policy two_line_password = true
  /\ IsPassword two_line_password = false.
Proof. split; vm_compute; reflexivity. Qed.

(** Whatever the validator counts, the policy asks for a count of at
    least 8 and for the first line to have 8 code units and one member
    of each class. *)
Lemma password_policy_by_count (count : nat) s :
  IsNotEmpty s && (8 <=? count)%nat && Matches password_pattern s = true
  <-> s <> []
      /\ (8 <= count)%nat
      /\ (8 <= length (first_line s))%nat
      /\ (exists c, In c (first_line s) /\ (cu "a" <= c <= cu "z")%N)
      /\ (exists c, In c (first_line s) /\ (cu "A" <= c <= cu "Z")%N)
      /\ (exists c, In c (first_line s) /\ (cu "0" <= c <= cu "9")%N)
      /\ (exists c, In c (first_line s) /\ In c (lit "!@#$%^&*?()-_,=+")).
Proof.
  rewrite Matches_password_pattern, !andb_true_iff, IsNotEmpty_iff,
    !Nat.leb_le.
  rewrite (exists_in_class lower _ _ (range_matches _ _)),
    (exists_in_class upper _ _ (range_matches _ _)),
    (exists_in_class digit _ _ (range_matches _ _)),
    (exists_in_class symbol _ _ symbol_matches).
  tauto.
Qed.

Lemma selector_sequences_cons a b s :
  Versions.selector_sequences (a :: b :: s)
  = if negb (is_presentation_selector a) && is_presentation_selector b
    then S (Versions.selector_sequences s)
    else Versions.selector_sequences (b :: s).
Proof. reflexivity. Qed.

(** On a string without surrogates and presentation selectors every
    release counts the code units. *)
Lemma validator_len_any_release rule s :
  Versions.no_surrogate_or_selector s ->
  Versions.validator_len rule s = length s.
Proof.
  intros H. unfold Versions.validator_len.
  assert (presentation_sequences s = 0%nat
          /\ Versions.selector_sequences s = 0%nat
          /\ surrogate_pairs s = 0%nat) as (Hp & Hs & Hpairs).
  { induction H as [|c s Hc Hrest (IH1 & IH2 & IH3)];
      [repeat split; reflexivity|].
    unfold Versions.ordinary_unit in Hc.
    apply negb_true_iff in Hc.
    apply orb_false_elim in Hc as [Hc Hsel].
    apply orb_false_elim in Hc as [Hhigh Hlow].
    split; [simpl; rewrite Hsel, IH1; reflexivity|].
    split.
    - destruct Hrest as [|b s Hb _]; [reflexivity|].
      rewrite selector_sequences_cons.
      unfold Versions.ordinary_unit in Hb.
      apply negb_true_iff in Hb. apply orb_false_elim in Hb as [_ Hb].
      rewrite Hb, andb_false_r. exact IH2.
    - destruct s as [|l s]; [reflexivity|].
      change (surrogate_pairs (c :: l :: s))
        with (if is_high_surrogate c && is_low_surrogate l
              then S (surrogate_pairs s)
              else surrogate_pairs (l :: s)).
      rewrite Hhigh. exact IH3. }
  destruct rule; simpl; rewrite ?Hp, ?Hs, Hpairs; lia.
Qed.

(** The concrete validators of module [Validators] are those of the
    releases 13.9 to 13.15.20. *)
Lemma IsPassword_every_selector s :
  Versions.IsPassword Versions.Every_selector s = IsPassword s.
Proof. reflexivity. Qed.

(** The password of two lines is rejected under every release: the
    pattern does not match it. *)
Lemma two_line_password_any_release rule :
  Versions.IsPassword rule two_line_password = false.
Proof. destruct rule; vm_compute; reflexivity. Qed.

(** C8, amended: under every release of the validator, [IsPassword]
    accepts a string without surrogates and presentation selectors
    exactly when it is non-empty, at least 8 code units long, and its
    first line, the code units before the first line terminator, has at
    least 8 code units and contains one of a-z, one of A-Z, one of 0-9
    and one of the symbols !@#$%^&*?()-_,=+.  The password abc12345 is
    rejected and Abc123!@ is accepted. *)
Theorem IsPassword_accepts_iff :
  (forall (rule : Versions.isLength_rule) (s : JsString.t),
     Versions.no_surrogate_or_selector s ->
     (Versions.IsPassword rule s = true <->
      s <> []
      /\ (8 <= length s)%nat
      /\ (8 <= length (first_line s))%nat
      /\ (exists c, In c (first_line s) /\ (cu "a" <= c <= cu "z")%N)
      /\ (exists c, In c (first_line s) /\ (cu "A" <= c <= cu "Z")%N)
      /\ (exists c, In c (first_line s) /\ (cu "0" <= c <= cu "9")%N)
      /\ (exists c, In c (first_line s) /\ In c (lit "!@#$%^&*?()-_,=+"))))
  /\ (forall rule : Versions.isLength_rule,
        Versions.IsPassword rule (lit "abc12345") = false
        /\ Versions.IsPassword rule (lit "Abc123!@") = true).
Proof.
  split.
  - intros rule s Hs. unfold Versions.IsPassword, Versions.MinLength.
    rewrite (validator_len_any_release rule s Hs).
    apply password_policy_by_count.
  - intros rule. destruct rule; split; vm_compute; reflexivity.
Qed.

(** The amended policy at work on a password of two lines. *)
Lemma IsPassword_accepts_iff_witness :
  Versions.IsPassword Versions.Selector_after_other
    (lit "Abc123!@" ++ [10%N] ++ lit "more") = true.
Proof.
  apply (proj1 IsPassword_accepts_iff).
  - repeat constructor.
  - split; [discriminate|].
    split; [vm_compute; lia|].
    split; [vm_compute; lia|].
    split; [exists (cu "b"); split;
            [vm_compute; tauto | vm_compute; split; discriminate]|].
    split; [exists (cu "A"); split;
            [vm_compute; tauto | vm_compute; split; discriminate]|].
    split; [exists (cu "1"); split;
            [vm_compute; tauto | vm_compute; split; discriminate]|].
    exists (cu "!"); split; vm_compute; tauto.
Defined.

End PasswordPolicy.

(* --------------------------------------------------------------------- *)
(** ** signup *)
(* --------------------------------------------------------------------- *)

Section Signup.
Import Js Cognito Prisma Run AuthService.

(** Whatever the table holds, the call of [_checkIfEmailExists] counts
    the rows of the email and [signup] then throws: the condition of its
    [if] is the promise, not the boolean the promise settles to. *)
Lemma signup_run env (input : SignupInput.t) w :
  signup env input w
  = (Normal (Rejected (Http DuplicateEmailException)),
     {| users := users w;
        log := log w ++ [UserCount (SignupInput.email input)] |}).
Proof.
  unfold signup, _checkIfEmailExists. repeat autounfold with effects.
  destruct (prisma_fault env Count) as [e|]; simpl; [reflexivity|].
  destruct (users w !! SignupInput.email input); reflexivity.
Qed.

(** [_createNewUser] when the provider creates the account and the
    insert goes through: one command, one row. *)
Lemma createNewUser_run env (input : SignupInput.t) w resp :
  provider env (SignUpCommand (clientId env) (SignupInput.email input)
                  (SignupInput.password input)) = Ok resp ->
  prisma_fault env Create = None ->
  users w !! SignupInput.email input = None ->
  let row :=
    {| email := SignupInput.email input;
       registrationStep :=
         if ToBoolean (SignUpOutput.UserConfirmed resp)
         then PENDING_CONFIRMATION else DONE;
       sub := SignUpOutput.UserSub resp |} in
  _createNewUser env input w
  = (Normal (Fulfilled tt),
     {| users := <[SignupInput.email input := row]> (users w);
        log := log w ++
          [Sent (SignUpCommand (clientId env) (SignupInput.email input)
                   (SignupInput.password input));
           UserCreate row] |}).
Proof.
  intros Hp Hf Hfresh row.
  unfold _createNewUser, _sendCreateNewUserCommand.
  repeat autounfold with effects.
  simpl. rewrite Hp, Hf. simpl. rewrite Hfresh. simpl.
  rewrite <- app_assoc. reflexivity.
Qed.

(** [_createNewUser] when the provider refuses: the promise is rejected
    with the provider's error and the table is not touched. *)
Lemma createNewUser_provider_failure env (input : SignupInput.t) w e :
  provider env (SignUpCommand (clientId env) (SignupInput.email input)
                  (SignupInput.password input)) = Fail e ->
  _createNewUser env input w
  = (Normal (Rejected (Collaborator e)),
     {| users := users w;
        log := log w ++
          [Sent (SignUpCommand (clientId env) (SignupInput.email input)
                   (SignupInput.password input))] |}).
Proof.
  intros Hp.
  unfold _createNewUser, _sendCreateNewUserCommand.
  repeat autounfold with effects.
  simpl. rewrite Hp. reflexivity.
Qed.

(** C1, the code at the failing input: the provider creates the account
    and reports it unconfirmed, and the row that [_createNewUser] inserts
    has [registrationStep = DONE]; when the provider reports the account
    confirmed the row has [PENDING_CONFIRMATION].  The two branches of
    the conditional are exchanged.  [sub] is the provider's [UserSub]. *)
Theorem createNewUser_registrationStep_exchanged :
  (exists w',
     _createNewUser (Samples.env_of (Samples.accepting false None))
       Samples.alice_signup Samples.empty_world
     = (Normal (Fulfilled tt), w')
     /\ users w' !! "alice@example.com"
        = Some {| email := "alice@example.com";
                  registrationStep := DONE;
                  sub := Some "sub-1" |})
  /\ (exists w',
     _createNewUser (Samples.env_of (Samples.accepting true None))
       Samples.alice_signup Samples.empty_world
     = (Normal (Fulfilled tt), w')
     /\ users w' !! "alice@example.com"
        = Some {| email := "alice@example.com";
                  registrationStep := PENDING_CONFIRMATION;
                  sub := Some "sub-1" |}).
Proof.
  split; eexists; (split; [reflexivity | vm_compute; reflexivity]).
Qed.

(** C2, the code at the failing input: the table is empty, the provider
    would create the account, and [signup] is rejected with
    [DuplicateEmailException] after one count query: no create-account
    command is sent and no row is inserted. *)
Theorem signup_unseen_email_is_rejected :
  exists evs,
    signup (Samples.env_of (Samples.accepting false None))
      Samples.alice_signup Samples.empty_world
    = (Normal (Rejected (Http DuplicateEmailException)),
       {| users := ∅; log := evs |})
    /\ count_events is_create_account evs = 0%nat
    /\ count_events is_insert evs = 0%nat.
Proof.
  eexists. split; [vm_compute; reflexivity|]. split; reflexivity.
Qed.

(** C3: when the table has a row for the email of the input, [signup] is
    rejected with [DuplicateEmailException], the table is unchanged and
    no create-account command is among the calls made. *)
Theorem signup_existing_email_is_duplicate env (input : SignupInput.t) w row :
  users w !! SignupInput.email input = Some row ->
  exists w',
    signup env input w
    = (Normal (Rejected (Http DuplicateEmailException)), w')
    /\ users w' = users w
    /\ exists evs,
         log w' = log w ++ evs
         /\ count_events is_create_account evs = 0%nat.
Proof.
  intros _. rewrite signup_run. eexists. split; [reflexivity|].
  split; [reflexivity|]. eexists. split; reflexivity.
Qed.

Lemma signup_existing_email_is_duplicate_witness :
  exists w',
    signup (Samples.env_of (Samples.accepting false None))
      Samples.alice_signup Samples.world_with_alice
    = (Normal (Rejected (Http DuplicateEmailException)), w')
    /\ users w' = users Samples.world_with_alice
    /\ exists evs,
         log w' = log Samples.world_with_alice ++ evs
         /\ count_events is_create_account evs = 0%nat.
Proof.
  apply (signup_existing_email_is_duplicate _ _ _ Samples.alice).
  vm_compute. reflexivity.
Defined.

(** C4: for every input and every table, the value that [signup] tests
    is a promise, which is truthy whatever it settles to (when the count
    succeeds it settles to the right boolean, which nobody reads), and
    [signup] is rejected with [DuplicateEmailException]. *)
Theorem signup_guard_is_always_truthy env (input : SignupInput.t) w :
  (exists p w',
     _checkIfEmailExists env (SignupInput.email input) w = (Normal p, w')
     /\ ToBoolean p = true
     /\ (prisma_fault env Count = None ->
         p = Fulfilled
               (match users w !! SignupInput.email input with
                | Some _ => true
                | None => false
                end)))
  /\ signup env input w
     = (Normal (Rejected (Http DuplicateEmailException)),
        {| users := users w;
           log := log w ++ [UserCount (SignupInput.email input)] |}).
Proof.
  split; [|apply signup_run].
  unfold _checkIfEmailExists. repeat autounfold with effects. simpl.
  destruct (prisma_fault env Count) as [e|]; simpl.
  - do 2 eexists. split; [reflexivity|]. split; [reflexivity|discriminate].
  - destruct (users w !! SignupInput.email input); simpl;
      do 2 eexists; (split; [reflexivity|]); split; reflexivity.
Qed.

Lemma signup_guard_is_always_truthy_witness :
  signup (Samples.env_of (Samples.accepting false None))
    Samples.alice_signup Samples.empty_world
  = (Normal (Rejected (Http DuplicateEmailException)),
     {| users := ∅; log := [UserCount "alice@example.com"] |}).
Proof.
  exact (proj2 (signup_guard_is_always_truthy
                  (Samples.env_of (Samples.accepting false None))
                  Samples.alice_signup Samples.empty_world)).
Defined.

End Signup.

(* --------------------------------------------------------------------- *)
(** ** confirmSignup *)
(* --------------------------------------------------------------------- *)

Section ConfirmSignup.
Import Js Cognito Prisma Run AuthService.

(** [confirmSignup] never throws and its promise is never rejected: the
    catch block returns. *)
Lemma confirmSignup_resolves env (input : ConfirmSignupInput.t) w :
  exists r w', confirmSignup env input w = (Normal (Fulfilled r), w').
Proof.
  unfold confirmSignup, async.
  destruct (try_catch _ _ w) as [[r|t] w'] eqn:E; [eauto|].
  exfalso. revert E.
  unfold try_catch.
  destruct (bind _ _ w) as [[r|t'] w'']; unfold ret; congruence.
Qed.

(** C5: [confirmSignup] always resolves.  When the provider confirms and
    the update finds the row of the email, it resolves with undefined,
    the row of the email has [registrationStep = DONE] with its other
    columns as before, and every other row is as before.  When the
    provider refuses, or the update fails (a database fault, or no row
    for the email), it resolves with an [InvalidUpdateUserException]
    that carries the message of the failure, and the table is as
    before. *)
Theorem confirmSignup_outcomes env (input : ConfirmSignupInput.t) w :
  (exists r w', confirmSignup env input w = (Normal (Fulfilled r), w'))
  /\ (forall out row,
        provider env (ConfirmSignUpCommand (clientId env)
                        (ConfirmSignupInput.email input)
                        (ConfirmSignupInput.code input)) = Ok out ->
        prisma_fault env Update = None ->
        users w !! ConfirmSignupInput.email input = Some row ->
        exists w',
          confirmSignup env input w = (Normal (Fulfilled None), w')
          /\ users w' = <[ConfirmSignupInput.email input := confirmed row]>
                          (users w)
          /\ users w' !! ConfirmSignupInput.email input = Some (confirmed row)
          /\ forall other,
               other <> ConfirmSignupInput.email input ->
               users w' !! other = users w !! other)
  /\ (forall e,
        provider env (ConfirmSignUpCommand (clientId env)
                        (ConfirmSignupInput.email input)
                        (ConfirmSignupInput.code input)) = Fail e ->
        exists w',
          confirmSignup env input w
          = (Normal (Fulfilled (Some (InvalidUpdateUserException (message e)))),
             w')
          /\ users w' = users w)
  /\ (forall out e,
        provider env (ConfirmSignUpCommand (clientId env)
                        (ConfirmSignupInput.email input)
                        (ConfirmSignupInput.code input)) = Ok out ->
        prisma_fault env Update = Some e
        \/ (prisma_fault env Update = None
            /\ users w !! ConfirmSignupInput.email input = None
            /\ e = record_not_found env) ->
        exists w',
          confirmSignup env input w
          = (Normal (Fulfilled (Some (InvalidUpdateUserException (message e)))),
             w')
          /\ users w' = users w).
Proof.
  split; [apply confirmSignup_resolves|].
  unfold confirmSignup, _sendConfirmUserSignupCommand,
    _updateUserAfterSignupConfirmation.
  repeat autounfold with effects.
  simpl. repeat split.
  - intros out row -> -> Hrow. simpl. rewrite Hrow. simpl.
    eexists. split; [reflexivity|]. simpl. split; [reflexivity|].
    split; [apply lookup_insert_eq|].
    intros other Hne. apply lookup_insert_ne. congruence.
  - intros e ->. simpl. eexists. split; reflexivity.
  - intros out e -> [->|(-> & Hrow & ->)]; simpl.
    + eexists. split; reflexivity.
    + rewrite Hrow. simpl. eexists. split; reflexivity.
Qed.

Lemma confirmSignup_outcomes_witness :
  exists w',
    confirmSignup (Samples.env_of (Samples.accepting false None))
      Samples.alice_confirm_signup Samples.world_with_alice
    = (Normal (Fulfilled None), w')
    /\ users w' = <["alice@example.com" := confirmed Samples.alice]>
                    (users Samples.world_with_alice)
    /\ users w' !! "alice@example.com" = Some (confirmed Samples.alice)
    /\ forall other,
         other <> "alice@example.com" ->
         users w' !! other = users Samples.world_with_alice !! other.
Proof.
  refine (proj1 (proj2 (confirmSignup_outcomes
            (Samples.env_of (Samples.accepting false None))
            Samples.alice_confirm_signup Samples.world_with_alice))
          tt Samples.alice _ _ _); reflexivity.
Defined.

End ConfirmSignup.

(* --------------------------------------------------------------------- *)
(** ** login *)
(* --------------------------------------------------------------------- *)

Section Login.
Import Js Cognito Prisma Run AuthService.

Lemma strict_eq_true a b : strict_eq a b = true <-> a = Some b.
Proof.
  destruct a as [x|]; simpl; [|split; discriminate].
  rewrite String.eqb_eq. split; congruence.
Qed.

Lemma strict_eq_false a b : strict_eq a b = false <-> a <> Some b.
Proof.
  rewrite <- strict_eq_true. destruct (strict_eq a b); split; congruence.
Qed.

(** C6: the provider answers the login command with [resp].
    - Challenge NEW_PASSWORD_REQUIRED: the result has exactly the keys
      ChallengeName and Session, the session is that of [resp], and the
      login command is the only call.
    - Challenge MFA_SETUP: one associate-software-token command is sent,
      with the session of [resp]; when it succeeds, Session and
      SecretCode of the result are those of its output.
    - Any other challenge, or none: ChallengeName and Session of [resp],
      and the login command is the only call. *)
Theorem login_challenge_dispatch env (input : LoginInput.t) w resp :
  provider env (InitiateAuthCommand USER_PASSWORD_AUTH (clientId env)
                  [("USERNAME", LoginInput.email input);
                   ("PASSWORD", LoginInput.password input)]) = Ok resp ->
  exists result evs,
    login env input w
    = (Normal result,
       {| users := users w;
          log := log w ++
            Sent (InitiateAuthCommand USER_PASSWORD_AUTH (clientId env)
                    [("USERNAME", LoginInput.email input);
                     ("PASSWORD", LoginInput.password input)]) :: evs |})
    /\ (InitiateAuthOutput.ChallengeName resp = Some NEW_PASSWORD_REQUIRED ->
        result = Fulfilled
                   [("ChallengeName", Some NEW_PASSWORD_REQUIRED);
                    ("Session", InitiateAuthOutput.Session resp)]
        /\ evs = [])
    /\ (InitiateAuthOutput.ChallengeName resp = Some MFA_SETUP ->
        evs = [Sent (AssociateSoftwareTokenCommand
                       (InitiateAuthOutput.Session resp))]
        /\ count_events is_associate_token evs = 1%nat
        /\ forall res,
             provider env (AssociateSoftwareTokenCommand
                             (InitiateAuthOutput.Session resp)) = Ok res ->
             result = Fulfilled
                        [("ChallengeName", Some MFA_SETUP);
                         ("Session", AssociateSoftwareTokenOutput.Session res);
                         ("SecretCode",
                          AssociateSoftwareTokenOutput.SecretCode res)])
    /\ (InitiateAuthOutput.ChallengeName resp <> Some NEW_PASSWORD_REQUIRED ->
        InitiateAuthOutput.ChallengeName resp <> Some MFA_SETUP ->
        result = Fulfilled
                   [("ChallengeName", InitiateAuthOutput.ChallengeName resp);
                    ("Session", InitiateAuthOutput.Session resp)]
        /\ evs = []).
Proof.
  intros Hp.
  unfold login, _sendLoginCommand, _handleLoginCommandResponse,
    _sendSetupMFACommand.
  repeat autounfold with effects.
  simpl. rewrite Hp. simpl.
  destruct (strict_eq (InitiateAuthOutput.ChallengeName resp)
              NEW_PASSWORD_REQUIRED) eqn:Hnew.
  - apply strict_eq_true in Hnew. simpl.
    exists (Fulfilled
              [("ChallengeName", Some NEW_PASSWORD_REQUIRED);
               ("Session", InitiateAuthOutput.Session resp)]), [].
    split; [reflexivity|]. rewrite Hnew.
    split; [auto|]. split; [discriminate|]. congruence.
  - apply strict_eq_false in Hnew.
    destruct (strict_eq (InitiateAuthOutput.ChallengeName resp) MFA_SETUP)
      eqn:Hmfa.
    + apply strict_eq_true in Hmfa. simpl.
      destruct (provider env (AssociateSoftwareTokenCommand
                                (InitiateAuthOutput.Session resp)))
        as [res|e]; simpl; rewrite <- app_assoc; simpl;
        eexists; eexists; (split; [reflexivity|]);
        (split; [congruence|]); (split; [|congruence]);
        intros _; (split; [reflexivity|]); (split; [reflexivity|]);
        intros res' Hres; congruence.
    + apply strict_eq_false in Hmfa. simpl.
      eexists; exists []. split; [reflexivity|].
      split; [congruence|]. split; [congruence|]. auto.
Qed.

Lemma login_challenge_dispatch_witness :
  exists result evs,
    login (Samples.env_of (Samples.accepting false (Some MFA_SETUP)))
      Samples.alice_login Samples.world_with_alice
    = (Normal result,
       {| users := users Samples.world_with_alice;
          log := Sent (InitiateAuthCommand USER_PASSWORD_AUTH "client-1"
                         [("USERNAME", "alice@example.com");
                          ("PASSWORD", "Abc123!@")]) :: evs |})
    /\ evs = [Sent (AssociateSoftwareTokenCommand (Some "session-1"))]
    /\ count_events is_associate_token evs = 1%nat
    /\ result = Fulfilled
                  [("ChallengeName", Some MFA_SETUP);
                   ("Session", Some "session-2");
                   ("SecretCode", Some "secret")].
Proof.
  destruct (login_challenge_dispatch
              (Samples.env_of (Samples.accepting false (Some MFA_SETUP)))
              Samples.alice_login Samples.world_with_alice _ eq_refl)
    as (result & evs & Hrun & _ & Hmfa & _).
  destruct (Hmfa eq_refl) as (Hevs & Hcount & Hres).
  exists result, evs. split; [exact Hrun|]. split; [exact Hevs|].
  split; [exact Hcount|]. exact (Hres _ eq_refl).
Defined.

End Login.

(* --------------------------------------------------------------------- *)
(** ** confirmLogin *)
(* --------------------------------------------------------------------- *)

Section ConfirmLogin.
Import Js Cognito Prisma Run AuthService.

(** C7: the provider fails the respond-to-challenge command with the
    error [e].  [confirmLogin] is rejected
    - with a [BadRequestException] whose body has the message
      "Invalid code, please try again" and the name CodeMismatchException
      when the name of [e] is CodeMismatchException or
      ExpiredCodeException;
    - with a [BadRequestException] whose body has the message
      "Session expired, please try again" when the name of [e] is
      NotAuthorizedException;
    - with [e] itself for every other name. *)
Theorem confirmLogin_failure_reclassified env (input : ConfirmLoginInput.t)
    w e :
  provider env (RespondToAuthChallengeCommand (clientId env)
                  SOFTWARE_TOKEN_MFA (ConfirmLoginInput.session input)
                  [("USERNAME", ConfirmLoginInput.email input);
                   ("SOFTWARE_TOKEN_MFA_CODE", ConfirmLoginInput.code input)])
  = Fail e ->
  exists t w',
    confirmLogin env input w = (Normal (Rejected t), w')
    /\ (name e = "CodeMismatchException" \/ name e = "ExpiredCodeException" ->
        t = Http (BadRequestException_object
                    "Invalid code, please try again" "CodeMismatchException")
        /\ message_of t = "Invalid code, please try again"
        /\ (exists h, t = Http h
                      /\ http_body_name h = Some "CodeMismatchException"))
    /\ (name e = "NotAuthorizedException" ->
        t = Http (BadRequestException_object
                    "Session expired, please try again"
                    "NotAuthorizedException")
        /\ message_of t = "Session expired, please try again")
    /\ (name e <> "CodeMismatchException" ->
        name e <> "ExpiredCodeException" ->
        name e <> "NotAuthorizedException" ->
        t = Collaborator e).
Proof.
  intros Hp.
  unfold confirmLogin, _sendConfirmLoginCommand.
  repeat autounfold with effects.
  simpl. rewrite Hp. simpl.
  destruct (String.eqb_spec (name e) "CodeMismatchException") as [Hc|Hc];
    [|destruct (String.eqb_spec (name e) "ExpiredCodeException") as [Hx|Hx];
      [|destruct (String.eqb_spec (name e) "NotAuthorizedException")
          as [Hn|Hn]]];
    simpl; do 2 eexists; (split; [reflexivity|]);
    (split; [intros Hname|split; [intros Hname|intros H1 H2 H3]]);
    try congruence; try (destruct Hname; congruence);
    try (split; [reflexivity|]); try (split; [reflexivity|]);
    try reflexivity; eauto.
Qed.

Lemma confirmLogin_failure_reclassified_witness :
  exists t w',
    confirmLogin (Samples.env_of (Samples.failing Samples.code_mismatch))
      Samples.alice_confirm_login Samples.world_with_alice
    = (Normal (Rejected t), w')
    /\ t = Http (BadRequestException_object
                   "Invalid code, please try again" "CodeMismatchException")
    /\ message_of t = "Invalid code, please try again".
Proof.
  destruct (confirmLogin_failure_reclassified
              (Samples.env_of (Samples.failing Samples.code_mismatch))
              Samples.alice_confirm_login Samples.world_with_alice
              Samples.code_mismatch eq_refl)
    as (t & w' & Hrun & Hcode & _).
  exists t, w'. split; [exact Hrun|].
  destruct (Hcode (or_introl eq_refl)) as (Ht & Hmsg & _).
  split; [exact Ht | exact Hmsg].
Defined.

(** C10: when the provider answers the respond-to-challenge command with
    [res], [confirmLogin] resolves with [res.AuthenticationResult]; two
    answers with the same AuthenticationResult give the same result,
    whatever their ChallengeName and Session. *)
Theorem confirmLogin_returns_authentication_result env
    (input : ConfirmLoginInput.t) w res :
  provider env (RespondToAuthChallengeCommand (clientId env)
                  SOFTWARE_TOKEN_MFA (ConfirmLoginInput.session input)
                  [("USERNAME", ConfirmLoginInput.email input);
                   ("SOFTWARE_TOKEN_MFA_CODE", ConfirmLoginInput.code input)])
  = Ok res ->
  confirmLogin env input w
  = (Normal (Fulfilled (RespondToAuthChallengeOutput.AuthenticationResult res)),
     {| users := users w;
        log := log w ++
          [Sent (RespondToAuthChallengeCommand (clientId env)
                   SOFTWARE_TOKEN_MFA (ConfirmLoginInput.session input)
                   [("USERNAME", ConfirmLoginInput.email input);
                    ("SOFTWARE_TOKEN_MFA_CODE",
                     ConfirmLoginInput.code input)])] |})
  /\ forall env' res',
       clientId env' = clientId env ->
       provider env' (RespondToAuthChallengeCommand (clientId env')
                  SOFTWARE_TOKEN_MFA (ConfirmLoginInput.session input)
                  [("USERNAME", ConfirmLoginInput.email input);
                   ("SOFTWARE_TOKEN_MFA_CODE", ConfirmLoginInput.code input)])
       = Ok res' ->
       RespondToAuthChallengeOutput.AuthenticationResult res'
       = RespondToAuthChallengeOutput.AuthenticationResult res ->
       confirmLogin env' input w = confirmLogin env input w.
Proof.
  intros Hp.
  unfold confirmLogin, _sendConfirmLoginCommand.
  repeat autounfold with effects.
  simpl. rewrite Hp. simpl. split; [reflexivity|].
  intros env' res' Hid Hp' Hsame. rewrite Hp'. simpl.
  rewrite Hid, Hsame. reflexivity.
Qed.

Lemma confirmLogin_returns_authentication_result_witness :
  confirmLogin (Samples.env_of (Samples.accepting false None))
    Samples.alice_confirm_login Samples.world_with_alice
  = (Normal (Fulfilled (Some Samples.tokens)),
     {| users := users Samples.world_with_alice;
        log := [Sent (RespondToAuthChallengeCommand "client-1"
                        SOFTWARE_TOKEN_MFA "session-1"
                        [("USERNAME", "alice@example.com");
                         ("SOFTWARE_TOKEN_MFA_CODE", "123456")])] |}).
Proof.
  exact (proj1 (confirmLogin_returns_authentication_result
                  (Samples.env_of (Samples.accepting false None))
                  Samples.alice_confirm_login Samples.world_with_alice
                  _ eq_refl)).
Defined.

End ConfirmLogin.

(* --------------------------------------------------------------------- *)
(** ** forgotPassword and refreshToken *)
(* --------------------------------------------------------------------- *)

Section PassThrough.
Import Js Cognito Prisma Run AuthService.

(** C9: when the provider fails the forgot-password command, or the
    refresh command, with the error [e], the promise of [forgotPassword],
    or of [refreshToken], is rejected with [e] itself; the table is not
    touched and the command is the only call. *)
Theorem forgotPassword_refreshToken_pass_through env w e :
  (forall email,
     provider env (ForgotPasswordCommand (clientId env) email) = Fail e ->
     forgotPassword env email w
     = (Normal (Rejected (Collaborator e)),
        {| users := users w;
           log := log w ++
             [Sent (ForgotPasswordCommand (clientId env) email)] |}))
  /\ (forall token,
     provider env (InitiateAuthCommand REFRESH_TOKEN (clientId env)
                     [("REFRESH_TOKEN", token)]) = Fail e ->
     refreshToken env token w
     = (Normal (Rejected (Collaborator e)),
        {| users := users w;
           log := log w ++
             [Sent (InitiateAuthCommand REFRESH_TOKEN (clientId env)
                      [("REFRESH_TOKEN", token)])] |})).
Proof.
  split.
  - intros email Hp.
    unfold forgotPassword, _sendForgotPasswordCommand.
    repeat autounfold with effects.
    simpl. rewrite Hp. reflexivity.
  - intros token Hp.
    unfold refreshToken, _sendRefreshTokenCommand.
    repeat autounfold with effects.
    simpl. rewrite Hp. reflexivity.
Qed.

Lemma forgotPassword_refreshToken_pass_through_witness :
  forgotPassword (Samples.env_of (Samples.failing Samples.too_many_requests))
    "alice@example.com" Samples.world_with_alice
  = (Normal (Rejected (Collaborator Samples.too_many_requests)),
     {| users := users Samples.world_with_alice;
        log := [Sent (ForgotPasswordCommand "client-1"
                        "alice@example.com")] |})
  /\ refreshToken (Samples.env_of (Samples.failing Samples.too_many_requests))
       "refresh" Samples.world_with_alice
     = (Normal (Rejected (Collaborator Samples.too_many_requests)),
        {| users := users Samples.world_with_alice;
           log := [Sent (InitiateAuthCommand REFRESH_TOKEN "client-1"
                           [("REFRESH_TOKEN", "refresh")])] |}).
Proof.
  split.
  - exact (proj1 (forgotPassword_refreshToken_pass_through
                    (Samples.env_of (Samples.failing Samples.too_many_requests))
                    Samples.world_with_alice Samples.too_many_requests)
             "alice@example.com" eq_refl).
  - exact (proj2 (forgotPassword_refreshToken_pass_through
                    (Samples.env_of (Samples.failing Samples.too_many_requests))
                    Samples.world_with_alice Samples.too_many_requests)
             "refresh" eq_refl).
Defined.

End PassThrough.

(* ===================================================================== *)
(** * Further properties *)
(* ===================================================================== *)

(* --------------------------------------------------------------------- *)
(** ** AccessToken and split *)
(* --------------------------------------------------------------------- *)

Section AccessTokenProperties.
Import JsString Validators Decorators.

Lemma starts_with_app sep t : starts_with sep (sep ++ t) = true.
Proof.
  induction sep as [|a sep IH]; simpl; [reflexivity|].
  rewrite N.eqb_refl. exact IH.
Qed.

(** Passing over the rest of a separator. *)
Lemma split_from_skip sep p :
  forall piece s,
    split_from sep (length p) piece (p ++ s) = split_from sep 0 piece s.
Proof.
  induction p as [|c p IH]; intros piece s; simpl; [reflexivity|]. apply IH.
Qed.

(** Without a separator ahead, the rest of the string is one piece. *)
Lemma split_from_no_occurrence sep :
  forall s piece,
    occurs sep s = false -> split_from sep 0 piece s = [rev piece ++ s].
Proof.
  induction s as [|c s IH]; intros piece H.
  - simpl. rewrite app_nil_r. reflexivity.
  - cbn [occurs] in H. apply orb_false_elim in H as [Hhere Hlater].
    cbn [split_from]. rewrite Hhere, (IH _ Hlater).
    simpl. rewrite <- app_assoc. reflexivity.
Qed.

(** Code units other than the first of the separator start no match. *)
Lemma split_from_prefix b sep' pre :
  Forall (fun c => c <> b) pre ->
  forall piece rest,
    split_from (b :: sep') 0 piece (pre ++ rest)
    = split_from (b :: sep') 0 (rev pre ++ piece) rest.
Proof.
  induction 1 as [|c pre Hc _ IH]; intros piece rest; [reflexivity|].
  cbn [app split_from starts_with].
  apply N.eqb_neq in Hc. rewrite N.eqb_sym in Hc. rewrite Hc. cbn [andb].
  rewrite IH. simpl. rewrite <- app_assoc. reflexivity.
Qed.

(** At a separator the piece ends and the search resumes after it. *)
Lemma split_from_at_separator b sep' piece t :
  split_from (b :: sep') 0 piece ((b :: sep') ++ t)
  = rev piece :: split_from (b :: sep') 0 [] t.
Proof.
  pose proof (starts_with_app (b :: sep') t) as Hhere.
  cbn [app] in *. cbn [split_from]. rewrite Hhere.
  cbn [length]. rewrite Nat.sub_1_r. cbn [Nat.pred].
  rewrite split_from_skip. reflexivity.
Qed.

(** X1: when the accessToken cookie is some text without the letter B,
    then "Bearer ", then a text [t] in which "Bearer " does not occur,
    [AccessToken] returns [t].  With an empty text before "Bearer " this
    is the round trip of a well-formed cookie; the text before the
    marker is not checked to be empty. *)
Theorem AccessToken_returns_text_after_marker
    (cookies : gmap string JsString.t) pre t :
  cookies !! "accessToken" = Some (pre ++ Bearer ++ t) ->
  Forall (fun c => c <> cu "B") pre ->
  occurs Bearer t = false ->
  AccessToken cookies = Returned (Some t).
Proof.
  intros Hcookie Hpre Ht. unfold AccessToken, JsString.t in *.
  rewrite Hcookie.
  assert (Js.ToBoolean (pre ++ Bearer ++ t) = true) as ->
    by (destruct pre; reflexivity).
  cbn [negb]. unfold split.
  change Bearer with (cu "B" :: lit "earer ") in *.
  rewrite (split_from_prefix _ _ _ Hpre).
  rewrite split_from_at_separator, (split_from_no_occurrence _ _ _ Ht).
  rewrite app_nil_r, rev_involutive. reflexivity.
Qed.

Lemma AccessToken_returns_text_after_marker_witness :
  AccessToken {[ "accessToken" := lit "token=Bearer abc.def" ]}
  = Returned (Some (lit "abc.def")).
Proof.
  apply (AccessToken_returns_text_after_marker _ (lit "token=")).
  - reflexivity.
  - repeat constructor; discriminate.
  - reflexivity.
Defined.

(** X2: [AccessToken] throws exactly when the accessToken cookie is
    missing or empty.  A non-empty cookie in which "Bearer " does not
    occur is not refused: the decorator returns undefined. *)
Theorem AccessToken_unauthorized_iff (cookies : gmap string JsString.t) :
  (AccessToken cookies = Unauthorized
   <-> cookies !! "accessToken" = None \/ cookies !! "accessToken" = Some [])
  /\ (forall token,
        cookies !! "accessToken" = Some token ->
        token <> [] ->
        occurs Bearer token = false ->
        AccessToken cookies = Returned None).
Proof.
  unfold AccessToken, JsString.t in *. split.
  - destruct (cookies !! "accessToken") as [[|c token]|]; simpl;
      split; auto; try discriminate; intros [H|H]; discriminate.
  - intros token -> Hne Hocc.
    destruct token as [|c token]; [congruence|]. simpl negb. cbv iota.
    unfold split. rewrite (split_from_no_occurrence _ _ _ Hocc).
    reflexivity.
Qed.

Lemma AccessToken_unauthorized_iff_witness :
  AccessToken {[ "accessToken" := lit "abc.def" ]} = Returned None.
Proof.
  apply (proj2 (AccessToken_unauthorized_iff
                  {[ "accessToken" := lit "abc.def" ]}) (lit "abc.def")).
  - reflexivity.
  - discriminate.
  - reflexivity.
Defined.

End AccessTokenProperties.

(* --------------------------------------------------------------------- *)
(** ** IsCode, and IsPassword on longer strings *)
(* --------------------------------------------------------------------- *)

Section LengthProperties.
Import JsString RegExp Validators Decorators.

Lemma presentation_sequences_app s t :
  presentation_sequences (s ++ t)
  = (presentation_sequences s + presentation_sequences t)%nat.
Proof.
  induction s as [|c s IH]; simpl; [reflexivity|]. rewrite IH. lia.
Qed.

Lemma surrogate_pairs_cons h l s :
  surrogate_pairs (h :: l :: s)
  = if is_high_surrogate h && is_low_surrogate l
    then S (surrogate_pairs s)
    else surrogate_pairs (l :: s).
Proof. reflexivity. Qed.

(** Every surrogate pair ends in a low surrogate of its own. *)
Lemma surrogate_pairs_le_low t :
  (surrogate_pairs t <= low_surrogates t)%nat
  /\ forall h, (surrogate_pairs (h :: t) <= low_surrogates t)%nat.
Proof.
  unfold low_surrogates.
  induction t as [|l t [IH1 IH2]]; [split; intros; simpl; lia|].
  assert (Hstep : (length (List.filter is_low_surrogate t)
                   <= length (List.filter is_low_surrogate (l :: t)))%nat)
    by (simpl; destruct (is_low_surrogate l); simpl; lia).
  split; [specialize (IH2 l); lia|].
  intros h. rewrite surrogate_pairs_cons.
  destruct (is_high_surrogate h && is_low_surrogate l) eqn:Hpair.
  - apply andb_true_iff in Hpair as [_ Hlow]. simpl. rewrite Hlow. simpl. lia.
  - specialize (IH2 l). lia.
Qed.

Lemma surrogate_pairs_app t s :
  (surrogate_pairs (s ++ t) <= surrogate_pairs s + low_surrogates t)%nat
  /\ forall h,
       (surrogate_pairs (h :: s ++ t)
        <= surrogate_pairs (h :: s) + low_surrogates t)%nat.
Proof.
  induction s as [|l s [IH1 IH2]].
  - split; [apply surrogate_pairs_le_low|].
    intros h. change (surrogate_pairs [h]) with 0%nat.
    apply surrogate_pairs_le_low.
  - split; [apply IH2|].
    intros h. change ((l :: s) ++ t) with (l :: s ++ t).
    rewrite !surrogate_pairs_cons.
    destruct (is_high_surrogate h && is_low_surrogate l).
    + lia.
    + apply IH2.
Qed.

Lemma selectors_and_low_surrogates t :
  (presentation_sequences t + low_surrogates t <= length t)%nat.
Proof.
  unfold low_surrogates.
  induction t as [|c t IH]; simpl; [lia|].
  destruct (is_presentation_selector c) eqn:Hsel,
    (is_low_surrogate c) eqn:Hlow; simpl; try lia.
  exfalso. unfold is_presentation_selector in Hsel.
  unfold is_low_surrogate in Hlow.
  apply orb_true_iff in Hsel. apply andb_true_iff in Hlow.
  rewrite !N.eqb_eq in Hsel. rewrite !N.leb_le in Hlow. lia.
Qed.

(** The validator's length never decreases when a string is extended. *)
Lemma validator_len_app s t :
  (validator_len s <= validator_len (s ++ t))%nat.
Proof.
  unfold validator_len.
  rewrite length_app, presentation_sequences_app.
  pose proof (proj1 (surrogate_pairs_app t s)).
  pose proof (selectors_and_low_surrogates t).
  lia.
Qed.

Lemma first_line_app s t : exists u, first_line (s ++ t) = first_line s ++ u.
Proof.
  induction s as [|c s [u IH]]; simpl; [eauto|].
  destruct (is_line_terminator c); [exists []; reflexivity|].
  exists u. rewrite IH. reflexivity.
Qed.

Lemma surrogate_pairs_none s :
  Forall (fun c => is_high_surrogate c = false) s -> surrogate_pairs s = 0%nat.
Proof.
  induction 1 as [|c s Hc _ IH]; [reflexivity|].
  destruct s as [|l s]; [reflexivity|].
  rewrite surrogate_pairs_cons, Hc. exact IH.
Qed.

(** X3: a password that [IsPassword] accepts stays accepted when any
    text is appended to it: the policy has no maximal length and
    forbids no character after an accepted beginning. *)
Theorem IsPassword_extension s t :
  IsPassword s = true -> IsPassword (s ++ t) = true.
Proof.
  unfold IsPassword, MinLength.
  rewrite !Matches_password_pattern, !andb_true_iff, !Nat.leb_le.
  intros [[Hne Hlen] (Hl & Hu & Hd & Hs & H8)].
  destruct (first_line_app s t) as [u ->].
  rewrite !existsb_app, length_app, Hl, Hu, Hd, Hs.
  pose proof (validator_len_app s t).
  repeat split; try reflexivity; try lia.
  destruct s; [discriminate|reflexivity].
Qed.

Lemma IsPassword_extension_witness :
  IsPassword (lit "Abc123!@" ++ [10%N; 0%N; 65039%N; 55357%N]) = true.
Proof.
  apply IsPassword_extension. reflexivity.
Defined.

(** The same under the other releases of the validator: a selector that
    is left out of the count is a selector of its own. *)
Lemma selector_sequences_le t :
  (Versions.selector_sequences t <= presentation_sequences t)%nat
  /\ forall h,
       (Versions.selector_sequences (h :: t) <= presentation_sequences t)%nat.
Proof.
  induction t as [|b t [IH1 IH2]]; [split; intros; simpl; lia|].
  assert (Hstep : (presentation_sequences t
                   <= presentation_sequences (b :: t))%nat) by (simpl; lia).
  split; [specialize (IH2 b); lia|].
  intros h. rewrite selector_sequences_cons.
  destruct (negb (is_presentation_selector h) && is_presentation_selector b)
    eqn:Hpair.
  - apply andb_true_iff in Hpair as [_ Hsel]. simpl. rewrite Hsel. lia.
  - specialize (IH2 b). lia.
Qed.

Lemma selector_sequences_app t s :
  (Versions.selector_sequences (s ++ t)
   <= Versions.selector_sequences s + presentation_sequences t)%nat
  /\ forall h,
       (Versions.selector_sequences (h :: s ++ t)
        <= Versions.selector_sequences (h :: s)
           + presentation_sequences t)%nat.
Proof.
  induction s as [|b s [IH1 IH2]].
  - split; [apply selector_sequences_le|].
    intros h. change (Versions.selector_sequences [h]) with 0%nat.
    apply selector_sequences_le.
  - split; [apply IH2|].
    intros h. change ((b :: s) ++ t) with (b :: s ++ t).
    rewrite !selector_sequences_cons.
    destruct (negb (is_presentation_selector h)
              && is_presentation_selector b).
    + lia.
    + apply IH2.
Qed.

Lemma validator_len_app_any_release rule s t :
  (Versions.validator_len rule s <= Versions.validator_len rule (s ++ t))%nat.
Proof.
  unfold Versions.validator_len.
  rewrite length_app.
  pose proof (proj1 (surrogate_pairs_app t s)).
  pose proof (selectors_and_low_surrogates t).
  destruct rule; simpl.
  - lia.
  - rewrite presentation_sequences_app. lia.
  - pose proof (proj1 (selector_sequences_app t s)). lia.
Qed.

Lemma IsPassword_extension_any_release rule s t :
  Versions.IsPassword rule s = true ->
  Versions.IsPassword rule (s ++ t) = true.
Proof.
  unfold Versions.IsPassword, Versions.MinLength.
  rewrite !Matches_password_pattern, !andb_true_iff, !Nat.leb_le.
  intros [[Hne Hlen] (Hl & Hu & Hd & Hs & H8)].
  destruct (first_line_app s t) as [u ->].
  rewrite !existsb_app, length_app, Hl, Hu, Hd, Hs.
  pose proof (validator_len_app_any_release rule s t).
  repeat split; try reflexivity; try lia.
  destruct s; [discriminate|reflexivity].
Qed.

(** X4: under every release of the validator, [IsCode] accepts a
    string without surrogates and presentation selectors exactly when it
    has 6 code units, and whatever the string, an accepted code has at
    least 6 code units.  The code 12345 is rejected and 123456 is
    accepted. *)
Theorem IsCode_accepts_iff :
  (forall (rule : Versions.isLength_rule) (s : JsString.t),
     Versions.no_surrogate_or_selector s ->
     (Versions.IsCode rule s = true <-> length s = 6%nat))
  /\ (forall (rule : Versions.isLength_rule) (s : JsString.t),
        Versions.IsCode rule s = true -> (6 <= length s)%nat)
  /\ (forall rule : Versions.isLength_rule,
        Versions.IsCode rule (lit "12345") = false
        /\ Versions.IsCode rule (lit "123456") = true).
Proof.
  assert (Hiff : forall rule s,
             Versions.IsCode rule s = true
             <-> Versions.validator_len rule s = 6%nat).
  { intros rule s. unfold Versions.IsCode, Versions.Length.
    rewrite !andb_true_iff, !Nat.leb_le, IsNotEmpty_iff.
    split; [lia|]. intros Hlen. split; [|lia].
    intros ->. destruct rule; discriminate. }
  split; [|split].
  - intros rule s Hs. rewrite Hiff, (validator_len_any_release rule s Hs).
    reflexivity.
  - intros rule s H. apply Hiff in H. unfold Versions.validator_len in H.
    lia.
  - intros rule. destruct rule; split; vm_compute; reflexivity.
Qed.

Lemma IsCode_accepts_iff_witness :
  Versions.IsCode Versions.No_selector (lit "123456") = true
  /\ (6 <= length (lit "123456"))%nat.
Proof.
  assert (H : Versions.IsCode Versions.No_selector (lit "123456") = true).
  { apply (proj1 IsCode_accepts_iff Versions.No_selector (lit "123456")).
    - repeat constructor.
    - reflexivity. }
  split; [exact H|].
  exact (proj1 (proj2 IsCode_accepts_iff) Versions.No_selector _ H).
Defined.

End LengthProperties.

(* --------------------------------------------------------------------- *)
(** ** login, resendConfirmationCode and the methods that only call the
       provider *)
(* --------------------------------------------------------------------- *)

Section ProviderMethods.
Import Js Cognito Prisma Run AuthService Observe.

(** X5: when the provider fails the login command with the error [e],
    [login] is rejected with a [LoginUserException] whose description is
    the message of [e]; the login command is the only call and the table
    is as before. *)
Theorem login_provider_failure env (input : LoginInput.t) w e :
  provider env (InitiateAuthCommand USER_PASSWORD_AUTH (clientId env)
                  [("USERNAME", LoginInput.email input);
                   ("PASSWORD", LoginInput.password input)]) = Fail e ->
  login env input w
  = (Normal (Rejected (Http (LoginUserException (message e)))),
     {| users := users w;
        log := log w ++
          [Sent (InitiateAuthCommand USER_PASSWORD_AUTH (clientId env)
                   [("USERNAME", LoginInput.email input);
                    ("PASSWORD", LoginInput.password input)])] |}).
Proof.
  intros Hp. unfold login, _sendLoginCommand.
  repeat autounfold with effects. simpl. rewrite Hp. reflexivity.
Qed.

Lemma login_provider_failure_witness :
  login (Samples.env_of (Samples.failing Samples.not_authorized))
    Samples.alice_login Samples.world_with_alice
  = (Normal (Rejected (Http (LoginUserException "Invalid session"))),
     {| users := users Samples.world_with_alice;
        log := [Sent (InitiateAuthCommand USER_PASSWORD_AUTH "client-1"
                        [("USERNAME", "alice@example.com");
                         ("PASSWORD", "Abc123!@")])] |}).
Proof.
  exact (login_provider_failure
           (Samples.env_of (Samples.failing Samples.not_authorized))
           Samples.alice_login Samples.world_with_alice
           Samples.not_authorized eq_refl).
Defined.

(** X6: when the login command is answered with the challenge MFA_SETUP
    and the provider then fails the associate-software-token command
    with the error [e], [login] is rejected with [e] itself, not with a
    [LoginUserException]: the promise of [_handleLoginCommandResponse]
    is returned without [await], so its rejection passes by the catch
    block. *)
Theorem login_mfa_setup_failure_escapes env (input : LoginInput.t) w resp e :
  provider env (InitiateAuthCommand USER_PASSWORD_AUTH (clientId env)
                  [("USERNAME", LoginInput.email input);
                   ("PASSWORD", LoginInput.password input)]) = Ok resp ->
  InitiateAuthOutput.ChallengeName resp = Some MFA_SETUP ->
  provider env (AssociateSoftwareTokenCommand
                  (InitiateAuthOutput.Session resp)) = Fail e ->
  login env input w
  = (Normal (Rejected (Collaborator e)),
     {| users := users w;
        log := log w ++
          [Sent (InitiateAuthCommand USER_PASSWORD_AUTH (clientId env)
                   [("USERNAME", LoginInput.email input);
                    ("PASSWORD", LoginInput.password input)]);
           Sent (AssociateSoftwareTokenCommand
                   (InitiateAuthOutput.Session resp))] |}).
Proof.
  intros Hp Hc Ha.
  unfold login, _sendLoginCommand, _handleLoginCommandResponse,
    _sendSetupMFACommand.
  repeat autounfold with effects. simpl. rewrite Hp. simpl.
  rewrite Hc. simpl. rewrite Ha. simpl. rewrite <- app_assoc. reflexivity.
Qed.

Lemma login_mfa_setup_failure_escapes_witness :
  login (Samples.env_of
           (Fixtures.failing_second_step Samples.too_many_requests))
    Samples.alice_login Samples.world_with_alice
  = (Normal (Rejected (Collaborator Samples.too_many_requests)),
     {| users := users Samples.world_with_alice;
        log := [Sent (InitiateAuthCommand USER_PASSWORD_AUTH "client-1"
                        [("USERNAME", "alice@example.com");
                         ("PASSWORD", "Abc123!@")]);
                Sent (AssociateSoftwareTokenCommand (Some "session-1"))] |}).
Proof.
  exact (login_mfa_setup_failure_escapes
           (Samples.env_of
              (Fixtures.failing_second_step Samples.too_many_requests))
           Samples.alice_login Samples.world_with_alice _
           Samples.too_many_requests eq_refl eq_refl eq_refl).
Defined.

(** X7: the result of [login] does not depend on the
    AuthenticationResult of the provider's answer: two deployments whose
    answers to the login command have the same ChallengeName and Session,
    and which answer the associate-software-token command alike, give
    the same result.  The tokens of an answer without challenge do not
    reach the caller. *)
Theorem login_ignores_authentication_result env env'
    (input : LoginInput.t) w resp resp' :
  clientId env' = clientId env ->
  provider env (InitiateAuthCommand USER_PASSWORD_AUTH (clientId env)
                  [("USERNAME", LoginInput.email input);
                   ("PASSWORD", LoginInput.password input)]) = Ok resp ->
  provider env' (InitiateAuthCommand USER_PASSWORD_AUTH (clientId env')
                   [("USERNAME", LoginInput.email input);
                    ("PASSWORD", LoginInput.password input)]) = Ok resp' ->
  InitiateAuthOutput.ChallengeName resp'
  = InitiateAuthOutput.ChallengeName resp ->
  InitiateAuthOutput.Session resp' = InitiateAuthOutput.Session resp ->
  provider env' (AssociateSoftwareTokenCommand
                   (InitiateAuthOutput.Session resp))
  = provider env (AssociateSoftwareTokenCommand
                    (InitiateAuthOutput.Session resp)) ->
  login env' input w = login env input w.
Proof.
  intros Hid Hp Hp' Hc Hs Ha.
  unfold login, _sendLoginCommand, _handleLoginCommandResponse,
    _sendSetupMFACommand.
  repeat autounfold with effects. simpl.
  rewrite Hp, Hp'. simpl. rewrite Hc, Hs, Hid.
  destruct (strict_eq (InitiateAuthOutput.ChallengeName resp)
              NEW_PASSWORD_REQUIRED); [reflexivity|].
  destruct (strict_eq (InitiateAuthOutput.ChallengeName resp) MFA_SETUP);
    [|reflexivity].
  simpl. rewrite Ha. reflexivity.
Qed.

Lemma login_ignores_authentication_result_witness :
  login (Samples.env_of Fixtures.authenticating) Samples.alice_login
    Samples.world_with_alice
  = login (Samples.env_of (Samples.accepting false None))
      Samples.alice_login Samples.world_with_alice.
Proof.
  exact (login_ignores_authentication_result
           (Samples.env_of (Samples.accepting false None))
           (Samples.env_of Fixtures.authenticating)
           Samples.alice_login Samples.world_with_alice _ _
           eq_refl eq_refl eq_refl eq_refl eq_refl eq_refl).
Defined.

(** X8: [resendConfirmationCode] resolves with undefined when the
    provider accepts the command; when the provider fails it with the
    error [e], it is rejected with a [ResendConfirmationCodeException]
    whose description is the message of [e]. *)
Theorem resendConfirmationCode_outcomes env (input : EmailOnlyInput.t) w :
  (forall out,
     provider env (ResendConfirmationCodeCommand (clientId env)
                     (EmailOnlyInput.email input)) = Ok out ->
     completion (resendConfirmationCode env input) w
     = Normal (Fulfilled tt))
  /\ (forall e,
     provider env (ResendConfirmationCodeCommand (clientId env)
                     (EmailOnlyInput.email input)) = Fail e ->
     completion (resendConfirmationCode env input) w
     = Normal (Rejected
                 (Http (ResendConfirmationCodeException (message e))))).
Proof.
  unfold completion, resendConfirmationCode,
    _sendResendConfirmationCodeCommand.
  repeat autounfold with effects. simpl.
  split; [intros out Hp | intros e Hp]; rewrite Hp; reflexivity.
Qed.

Lemma resendConfirmationCode_outcomes_witness :
  completion (resendConfirmationCode
                (Samples.env_of (Samples.failing Samples.too_many_requests))
                Fixtures.alice_email) Samples.world_with_alice
  = Normal (Rejected (Http (ResendConfirmationCodeException "Rate exceeded"))).
Proof.
  exact (proj2 (resendConfirmationCode_outcomes
                  (Samples.env_of (Samples.failing Samples.too_many_requests))
                  Fixtures.alice_email Samples.world_with_alice)
           Samples.too_many_requests eq_refl).
Defined.

(** X9: [login], [confirmLogin], [resendConfirmationCode],
    [forgotPassword] and [refreshToken] never read or write the user
    table, whatever the provider answers: the table after the call is
    the table before it, and every call made is a command sent to the
    provider. *)
Theorem provider_methods_leave_the_table env w :
  (forall input, provider_only (login env input) w)
  /\ (forall input, provider_only (confirmLogin env input) w)
  /\ (forall input, provider_only (resendConfirmationCode env input) w)
  /\ (forall email, provider_only (forgotPassword env email) w)
  /\ (forall token, provider_only (refreshToken env token) w).
Proof.
  unfold provider_only. repeat split.
  - intros input.
    unfold login, _sendLoginCommand, _handleLoginCommandResponse,
      _sendSetupMFACommand.
    repeat autounfold with effects. simpl.
    destruct (provider env (InitiateAuthCommand _ _ _)) as [resp|e]; simpl;
      [|do 2 eexists; split; [reflexivity|reflexivity]].
    destruct (strict_eq (InitiateAuthOutput.ChallengeName resp)
                NEW_PASSWORD_REQUIRED);
      [do 2 eexists; split; [reflexivity|reflexivity]|].
    destruct (strict_eq (InitiateAuthOutput.ChallengeName resp) MFA_SETUP);
      [|do 2 eexists; split; [reflexivity|reflexivity]].
    simpl.
    destruct (provider env (AssociateSoftwareTokenCommand _)); simpl;
      rewrite <- app_assoc; do 2 eexists; split; reflexivity.
  - intros input. unfold confirmLogin, _sendConfirmLoginCommand.
    repeat autounfold with effects. simpl.
    destruct (provider env (RespondToAuthChallengeCommand _ _ _ _))
      as [res|e]; simpl; [do 2 eexists; split; reflexivity|].
    destruct (String.eqb (name e) "CodeMismatchException"
              || String.eqb (name e) "ExpiredCodeException");
      [do 2 eexists; split; reflexivity|].
    destruct (String.eqb (name e) "NotAuthorizedException");
      do 2 eexists; split; reflexivity.
  - intros input.
    unfold resendConfirmationCode, _sendResendConfirmationCodeCommand.
    repeat autounfold with effects. simpl.
    destruct (provider env (ResendConfirmationCodeCommand _ _)); simpl;
      do 2 eexists; split; reflexivity.
  - intros email. unfold forgotPassword, _sendForgotPasswordCommand.
    repeat autounfold with effects. simpl.
    destruct (provider env (ForgotPasswordCommand _ _)); simpl;
      do 2 eexists; split; reflexivity.
  - intros token. unfold refreshToken, _sendRefreshTokenCommand.
    repeat autounfold with effects. simpl.
    destruct (provider env (InitiateAuthCommand _ _ _)); simpl;
      do 2 eexists; split; reflexivity.
Qed.

End ProviderMethods.

(* --------------------------------------------------------------------- *)
(** ** The user table under _createNewUser and confirmSignup *)
(* --------------------------------------------------------------------- *)

Section TableProperties.
Import Js Cognito Prisma Run AuthService Observe.

(** X10: [confirmSignup] touches at most the row of the email of its
    input: after the call every email has the row it had, except that
    the row of that email may have become its confirmed version.  No row
    is added or removed, and no [email] or [sub] changes. *)
Theorem confirmSignup_touches_one_row env (input : ConfirmSignupInput.t) w k :
  users_after (confirmSignup env input) w !! k = users w !! k
  \/ (k = ConfirmSignupInput.email input
      /\ exists row,
           users w !! k = Some row
           /\ users_after (confirmSignup env input) w !! k
              = Some (confirmed row)).
Proof.
  unfold users_after, confirmSignup, _sendConfirmUserSignupCommand,
    _updateUserAfterSignupConfirmation.
  repeat autounfold with effects. simpl.
  destruct (provider env (ConfirmSignUpCommand _ _ _)) as [out|e]; simpl;
    [|left; reflexivity].
  destruct (prisma_fault env Update) as [e|]; simpl; [left; reflexivity|].
  destruct (users w !! ConfirmSignupInput.email input) as [row|] eqn:Hrow;
    simpl; [|left; reflexivity].
  destruct (decide (k = ConfirmSignupInput.email input)) as [->|Hne].
  - right. split; [reflexivity|]. exists row. split; [exact Hrow|].
    apply lookup_insert_eq.
  - left. apply lookup_insert_ne. congruence.
Qed.

(** X11: [confirmSignup] changes the table only for an email whose row
    is pending: when the email has no row, or a row that is already
    DONE, the table after the call is the table before it, whatever the
    provider answers. *)
Theorem confirmSignup_changes_pending_rows_only env
    (input : ConfirmSignupInput.t) w :
  users w !! ConfirmSignupInput.email input = None
  \/ (exists row,
        users w !! ConfirmSignupInput.email input = Some row
        /\ registrationStep row = DONE) ->
  users_after (confirmSignup env input) w = users w.
Proof.
  intros Hrow.
  unfold users_after, confirmSignup, _sendConfirmUserSignupCommand,
    _updateUserAfterSignupConfirmation.
  repeat autounfold with effects. simpl.
  destruct (provider env (ConfirmSignUpCommand _ _ _)) as [out|e]; simpl;
    [|reflexivity].
  destruct (prisma_fault env Update) as [e|]; simpl; [reflexivity|].
  destruct Hrow as [Hnone|(row & Hsome & Hdone)].
  - rewrite Hnone. reflexivity.
  - rewrite Hsome. simpl. apply insert_id. rewrite Hsome.
    destruct row as [em step sb]. simpl in Hdone. subst step. reflexivity.
Qed.

Lemma confirmSignup_changes_pending_rows_only_witness :
  users_after
    (confirmSignup (Samples.env_of (Samples.accepting false None))
       Samples.alice_confirm_signup) Fixtures.world_with_alice_done
  = users Fixtures.world_with_alice_done.
Proof.
  apply confirmSignup_changes_pending_rows_only.
  right. exists Fixtures.alice_done. split; reflexivity.
Defined.

(** X12: a rejected [_createNewUser] has not written to the table. *)
Theorem createNewUser_rejected_leaves_table env (input : SignupInput.t)
    w t w' :
  _createNewUser env input w = (Normal (Rejected t), w') ->
  users w' = users w.
Proof.
  unfold _createNewUser, _sendCreateNewUserCommand.
  repeat autounfold with effects. simpl.
  destruct (provider env (SignUpCommand _ _ _)) as [resp|e]; simpl;
    [|intros [= _ <-]; reflexivity].
  destruct (prisma_fault env Create) as [e|]; simpl;
    [intros [= _ <-]; reflexivity|].
  destruct (users w !! SignupInput.email input); simpl;
    [intros [= _ <-]; reflexivity|discriminate].
Qed.

Lemma createNewUser_rejected_leaves_table_witness :
  users (snd (_createNewUser
                (Samples.env_of (Samples.failing Samples.too_many_requests))
                Fixtures.bob_signup Samples.world_with_alice))
  = users Samples.world_with_alice.
Proof.
  apply (createNewUser_rejected_leaves_table
           (Samples.env_of (Samples.failing Samples.too_many_requests))
           Fixtures.bob_signup Samples.world_with_alice
           (Collaborator Samples.too_many_requests)).
  reflexivity.
Defined.



(** X14: when the provider creates the account and the email has no row
    yet, [_createNewUser] adds exactly one row: the email of the input
    then reads a row with that email and with the provider's UserSub as
    [sub], every other email reads what it read before, and the table
    has one row more. *)
Theorem createNewUser_inserts_one_row env (input : SignupInput.t) w resp :
  provider env (SignUpCommand (clientId env) (SignupInput.email input)
                  (SignupInput.password input)) = Ok resp ->
  prisma_fault env Create = None ->
  users w !! SignupInput.email input = None ->
  completion (_createNewUser env input) w = Normal (Fulfilled tt)
  /\ (exists row,
        users_after (_createNewUser env input) w !! SignupInput.email input
        = Some row
        /\ email row = SignupInput.email input
        /\ sub row = SignUpOutput.UserSub resp)
  /\ (forall other,
        other <> SignupInput.email input ->
        users_after (_createNewUser env input) w !! other
        = users w !! other)
  /\ size (users_after (_createNewUser env input) w) = S (size (users w)).
Proof.
  intros Hp Hf Hfresh.
  unfold completion, users_after.
  rewrite (createNewUser_run env input w resp Hp Hf Hfresh). simpl.
  split; [reflexivity|]. split; [|split].
  - eexists. split; [apply lookup_insert_eq|]. split; reflexivity.
  - intros other Hne. apply lookup_insert_ne. congruence.
  - apply map_size_insert_None. exact Hfresh.
Qed.

Lemma createNewUser_inserts_one_row_witness :
  size (users_after
          (_createNewUser (Samples.env_of (Samples.accepting false None))
             Fixtures.bob_signup) Samples.world_with_alice)
  = 2%nat.
Proof.
  exact (proj2 (proj2 (proj2
    (createNewUser_inserts_one_row
       (Samples.env_of (Samples.accepting false None))
       Fixtures.bob_signup Samples.world_with_alice
       (Samples.sign_up_reply false) eq_refl eq_refl eq_refl)))).
Defined.

(** X15: [_createNewUser] followed by [confirmSignup] for the same
    email, both accepted by the provider and the database: the second
    call resolves with undefined and the email then reads the row with
    [registrationStep = DONE] and the provider's UserSub as [sub]. *)
Theorem confirmSignup_after_createNewUser env (input : SignupInput.t)
    (confirmation : ConfirmSignupInput.t) w resp out :
  ConfirmSignupInput.email confirmation = SignupInput.email input ->
  provider env (SignUpCommand (clientId env) (SignupInput.email input)
                  (SignupInput.password input)) = Ok resp ->
  provider env (ConfirmSignUpCommand (clientId env)
                  (ConfirmSignupInput.email confirmation)
                  (ConfirmSignupInput.code confirmation)) = Ok out ->
  prisma_fault env Create = None ->
  prisma_fault env Update = None ->
  users w !! SignupInput.email input = None ->
  completion (confirmSignup env confirmation)
    (snd (_createNewUser env input w))
  = Normal (Fulfilled None)
  /\ users_after (confirmSignup env confirmation)
       (snd (_createNewUser env input w)) !! SignupInput.email input
     = Some {| email := SignupInput.email input;
               registrationStep := DONE;
               sub := SignUpOutput.UserSub resp |}.
Proof.
  intros Hsame Hp Hc Hfc Hfu Hfresh.
  rewrite (createNewUser_run env input w resp Hp Hfc Hfresh).
  unfold completion, users_after, confirmSignup,
    _sendConfirmUserSignupCommand, _updateUserAfterSignupConfirmation.
  repeat autounfold with effects. simpl.
  rewrite Hc, Hfu. simpl. rewrite Hsame, lookup_insert_eq. simpl.
  split; [reflexivity|]. apply lookup_insert_eq.
Qed.

Lemma confirmSignup_after_createNewUser_witness :
  completion
    (confirmSignup (Samples.env_of (Samples.accepting false None))
       Fixtures.bob_confirm_signup)
    (snd (_createNewUser (Samples.env_of (Samples.accepting false None))
            Fixtures.bob_signup Samples.world_with_alice))
  = Normal (Fulfilled None)
  /\ users_after
       (confirmSignup (Samples.env_of (Samples.accepting false None))
          Fixtures.bob_confirm_signup)
       (snd (_createNewUser (Samples.env_of (Samples.accepting false None))
               Fixtures.bob_signup Samples.world_with_alice))
     !! "bob@example.com"
     = Some {| email := "bob@example.com";
               registrationStep := DONE;
               sub := Some "sub-1" |}.
Proof.
  exact (confirmSignup_after_createNewUser
           (Samples.env_of (Samples.accepting false None))
           Fixtures.bob_signup Fixtures.bob_confirm_signup
           Samples.world_with_alice (Samples.sign_up_reply false) tt
           eq_refl eq_refl eq_refl eq_refl eq_refl eq_refl).
Defined.

End TableProperties.
